(** * GTN Production Order: request handlers of [routes.py]

    A shallow embedding of the Flask request handlers of [routes.py] and
    proofs of the properties stated for them.  A handler is a function of
    the persistent store, the client session and the request; it returns
    the new store, the new session, the flashed messages and the response.

    What the handlers call but the sources do not hold is a parameter
    (class [Backend]): the password hash, whether the store raises on a
    commit, the collation of [LIKE] and the formatting of times. A commit
    either replaces the store or raises and leaves it, so a rollback is
    the old store. The tables are lists of rows in the store's own order;
    a primary key finds the first row that carries it.

    Text is a sequence of one-byte characters: [len] counts bytes, and the
    white space and digits recognised are the ASCII ones. *)

From Stdlib Require Import ZArith Ascii String List Lia Bool.
From stdpp Require Import base option list sorting strings pretty.

Local Open Scope Z_scope.

(** ** Interpreter primitives used by the handlers *)

Module Py.

(** [str.isspace] on one-byte characters: TAB..CR, FS..US and the blank. *)
Definition isspace (c : ascii) : bool :=
  let n := nat_of_ascii c in
  ((9 <=? n) && (n <=? 13) || (28 <=? n) && (n <=? 32))%nat.

Fixpoint lstrip (s : string) : string :=
  match s with
  | EmptyString => EmptyString
  | String c r => if isspace c then lstrip r else s
  end.

Fixpoint rstrip (s : string) : string :=
  match s with
  | EmptyString => EmptyString
  | String c r =>
      match rstrip r with
      | EmptyString => if isspace c then EmptyString else String c EmptyString
      | r' => String c r'
      end
  end.

(** [s.strip()] *)
Definition strip (s : string) : string := rstrip (lstrip s).

(** [s.split(sep)] for a one-character separator: never an empty list. *)
Fixpoint split (sep : ascii) (s : string) : list string :=
  match s with
  | EmptyString => [EmptyString]
  | String c r =>
      if Ascii.eqb c sep then EmptyString :: split sep r
      else match split sep r with
           | [] => [String c EmptyString]
           | w :: ws => String c w :: ws
           end
  end.

Definition digit (c : ascii) : option Z :=
  let n := nat_of_ascii c in
  if ((48 <=? n) && (n <=? 57))%nat then Some (Z.of_nat n - 48) else None.

(** Digits with single underscores between them; [seen] tells whether the
    previous character was a digit. *)
Fixpoint digits (acc : Z) (seen : bool) (s : string) : option Z :=
  match s with
  | EmptyString => if seen then Some acc else None
  | String c r =>
      match digit c with
      | Some d => digits (10 * acc + d) true r
      | None => if Ascii.eqb c "_" && seen then digits acc false r else None
      end
  end.

(** [int(s)] in base 10: [None] stands for the [ValueError]. The
    interpreter's limit on the number of digits is not modelled. *)
Definition int (s : string) : option Z :=
  match strip s with
  | String "-" r => Z.opp <$> digits 0 false r
  | String "+" r => digits 0 false r
  | t => digits 0 false t
  end.

(** Truth value of a string: non-empty. *)
Definition truthy (s : string) : bool :=
  match s with EmptyString => false | _ => true end.

(** [len(s)] *)
Definition len (s : string) : Z := Z.of_nat (String.length s).

(** [str(n)] for an integer. *)
Definition str_int (n : Z) : string := pretty n.

Definition hexdigit (n : nat) : ascii :=
  ascii_of_nat (if (n <? 10)%nat then 48 + n else 87 + n).

Definition quote : ascii := "039".
Definition dquote : ascii := "034".
Definition backslash : ascii := "092".

Fixpoint mem (c : ascii) (s : string) : bool :=
  match s with
  | EmptyString => false
  | String d r => Ascii.eqb c d || mem c r
  end.

Definition escape (q c : ascii) : string :=
  let n := nat_of_ascii c in
  if Ascii.eqb c backslash then String backslash (String backslash EmptyString)
  else if Ascii.eqb c q then String backslash (String q EmptyString)
  else if (n =? 10)%nat then String backslash "n"
  else if (n =? 13)%nat then String backslash "r"
  else if (n =? 9)%nat then String backslash "t"
  else if ((n <? 32) || (n =? 127))%nat
       then String backslash (String "x" (String (hexdigit (n / 16))
                                            (String (hexdigit (n mod 16)) EmptyString)))
  else String c EmptyString.

Fixpoint escape_all (q : ascii) (s : string) : string :=
  match s with
  | EmptyString => EmptyString
  | String c r => escape q c +:+ escape_all q r
  end.

(** [repr(s)]: single quotes unless the text has one and no double quote. *)
Definition repr (s : string) : string :=
  let q := if mem quote s && negb (mem dquote s) then dquote else quote in
  String q (escape_all q s +:+ String q EmptyString).

End Py.

(** ** Data model *)

(** Modelled from the spec: [models.py] is not among the sources. The four
    record types carry the columns the handlers read and write, as the
    spec's data model lists them; every row has an integer primary key. *)
Module User.
Record t := mk {
  id : Z;
  username : string;
  password_hash : string;
  name : string;
  department : string;
  is_admin : bool;
  is_active : bool
}.
End User.

Module Department.
Record t := mk { id : Z; name : string; is_active : bool }.
End Department.

Module WorkCenter.
Record t := mk { id : Z; name : string; is_active : bool }.
End WorkCenter.

Module ProductionOrder.
Record t := mk {
  id : Z;
  production_order : string;
  workcenter_id : Z;
  quantity : Z;
  order_type : string;
  user_id : Z;
  created_at : Z
}.

(** A [ProductionOrder()] object the handler has filled in and added to
    the session but not flushed: no primary key and no timestamp yet. *)
Module New.
Record t := mk {
  production_order : string;
  workcenter_id : Z;
  quantity : Z;
  order_type : string;
  user_id : Z
}.
End New.
End ProductionOrder.

(** The relational store: one list of rows per table, in the order in
    which the store returns them to a query without [ORDER BY]. *)
Record Store := mkStore {
  users : list User.t;
  departments : list Department.t;
  workcenters : list WorkCenter.t;
  orders : list ProductionOrder.t
}.

(** The Flask session: the three keys the application ever writes, each
    present or absent. *)
Module Session.
Record t := mk {
  user_id : option Z;
  username : option string;
  is_admin : option bool
}.

(** [session.clear()] *)
Definition clear : t := mk None None None.

(** ['user_id' in session] *)
Definition logged_in (s : t) : bool :=
  match user_id s with Some _ => true | None => false end.

(** [session.get('is_admin')] as a truth value *)
Definition admin (s : t) : bool :=
  match is_admin s with Some b => b | None => false end.
End Session.

(** A production order as a query over
    [ProductionOrder JOIN WorkCenter JOIN User] yields it: the entity with
    the two rows its relationships load. *)
Record OrderRow := mkRow {
  order : ProductionOrder.t;
  workcenter : WorkCenter.t;
  user : User.t
}.

(** The request: form fields and query parameters as multi-dicts, and the
    clock reading while it is served. *)
Record Request := mkRequest {
  form : list (string * string);
  args : list (string * string);
  now : Z
}.

(** [d.getlist(key)] *)
Definition getlist (key : string) (d : list (string * string)) : list string :=
  map snd (filter (fun kv => bool_decide (fst kv = key)) d).

(** [d[key]]: the first value; [None] is the bad-request key error. *)
Definition getitem (key : string) (d : list (string * string)) : option string :=
  head (getlist key d).

(** [d.get(key, default)] *)
Definition get (key default : string) (d : list (string * string)) : string :=
  from_option id default (getitem key d).

(** [key in d] *)
Definition contains_key (key : string) (d : list (string * string)) : bool :=
  match getitem key d with Some _ => true | None => false end.

(** *** The exported workbook *)

Inductive CellValue :=
  | VNone
  | VStr (s : string)
  | VInt (n : Z).

(** [str(cell.value)] *)
Definition str_value (v : CellValue) : string :=
  match v with VNone => "None" | VStr s => s | VInt n => Py.str_int n end.

Record Cell := mkCell {
  value : CellValue;
  font_bold : bool;
  fill : option string;
  alignment : option string
}.

Record Worksheet := mkSheet {
  title : string;
  rows : list (list Cell);
  column_dimensions : list (string * Z)
}.

Record Workbook := mkBook { sheets : list Worksheet }.

(** *** Responses *)

Inductive View :=
  | login_html
  | menu_html
  | in_orders_html (wcs : list WorkCenter.t)
  | out_orders_html (wcs : list WorkCenter.t)
  | reports_html (orders : list OrderRow) (search sort_by order : string)
  | admin_dashboard_html (total_users total_workcenters
                          total_in_orders total_out_orders : Z)
                         (recent_orders : list OrderRow)
  | admin_users_html (us : list User.t) (deps : list Department.t)
  | admin_reports_html (orders : list OrderRow) (search sort_by order : string)
  | master_data_html (wcs : list WorkCenter.t) (deps : list Department.t).

Inductive Response :=
  | Redirect (endpoint : string)
  | Render (v : View)
  | Abort (code : Z)
  | Attachment (wb : Workbook) (disposition content_type : string).

(** What serving one request leaves behind. *)
Record Result := mkResult {
  store : Store;
  session : Session.t;
  flashes : list (string * string);
  response : Response
}.

(** Exceptions caught by the handlers' [except Exception] clauses. *)
Inductive Exn :=
  | ValueError (literal : string)
  | KeyError (key : string)
  | CommitError (text : string).

(** [str(e)] *)
Definition str_exn (e : Exn) : string :=
  match e with
  | ValueError literal =>
      "invalid literal for int() with base 10: " +:+ Py.repr literal
  | KeyError key => Py.repr key
  | CommitError text => text
  end.

Inductive Try (A : Type) :=
  | Ok (a : A)
  | Raise (e : Exn).
Arguments Ok {A} a.
Arguments Raise {A} e.

Definition try_bind {A B} (m : Try A) (k : A -> Try B) : Try B :=
  match m with Ok a => k a | Raise e => Raise e end.

Notation "x <~ m ;; k" := (try_bind m (fun x => k))
  (at level 100, m at next level, right associativity).

(** What lies outside the sources: the password hashing library, the
    store's commit, its [LIKE] collation and the clock's formatting. *)
Class Backend := {
  check_password_hash : string -> string -> bool;
  generate_password_hash : string -> string;
  (** [commit_error old new]: the text of the exception the store raises
      when asked to commit the change from [old] to [new], if it does. *)
  commit_error : Store -> Store -> option string;
  (** whether the collation of [LIKE] identifies two characters *)
  like_eq : ascii -> ascii -> bool;
  (** [t.strftime(format)] *)
  strftime : string -> Z -> string
}.

(** ** Queries *)

Definition set_users (st : Store) (us : list User.t) : Store :=
  mkStore us (departments st) (workcenters st) (orders st).
Definition set_departments (st : Store) (ds : list Department.t) : Store :=
  mkStore (users st) ds (workcenters st) (orders st).
Definition set_workcenters (st : Store) (ws : list WorkCenter.t) : Store :=
  mkStore (users st) (departments st) ws (orders st).
Definition set_orders (st : Store) (os : list ProductionOrder.t) : Store :=
  mkStore (users st) (departments st) (workcenters st) os.

(** [Model.query.get(pk)] on each table *)
Definition get_user (st : Store) (pk : Z) : option User.t :=
  find (fun u => bool_decide (User.id u = pk)) (users st).
Definition get_workcenter (st : Store) (pk : Z) : option WorkCenter.t :=
  find (fun w => bool_decide (WorkCenter.id w = pk)) (workcenters st).
Definition get_department (st : Store) (pk : Z) : option Department.t :=
  find (fun d => bool_decide (Department.id d = pk)) (departments st).

(** Writing a changed row back under its primary key. *)
Definition update_user (u' : User.t) (us : list User.t) : list User.t :=
  map (fun u => if bool_decide (User.id u = User.id u') then u' else u) us.
Definition update_workcenter (w' : WorkCenter.t) (ws : list WorkCenter.t) :=
  map (fun w => if bool_decide (WorkCenter.id w = WorkCenter.id w') then w' else w) ws.
Definition update_department (d' : Department.t) (ds : list Department.t) :=
  map (fun d => if bool_decide (Department.id d = Department.id d') then d' else d) ds.

(** The primary key the store gives the next inserted row. *)
Definition next_id (ids : list Z) : Z := 1 + foldr Z.max 0 ids.

(** Modelled from the spec: [models.py] is not among the sources; a
    production order gets its [created_at] timestamp at insertion. *)
Definition insert_order (now : Z) (os : list ProductionOrder.t)
    (n : ProductionOrder.New.t) : list ProductionOrder.t :=
  os ++ [ProductionOrder.mk
           (next_id (map ProductionOrder.id os))
           (ProductionOrder.New.production_order n)
           (ProductionOrder.New.workcenter_id n)
           (ProductionOrder.New.quantity n)
           (ProductionOrder.New.order_type n)
           (ProductionOrder.New.user_id n)
           now].

(** The columns of a stored order that the handler filled in. *)
Definition as_new (o : ProductionOrder.t) : ProductionOrder.New.t :=
  ProductionOrder.New.mk
    (ProductionOrder.production_order o) (ProductionOrder.workcenter_id o)
    (ProductionOrder.quantity o) (ProductionOrder.order_type o)
    (ProductionOrder.user_id o).

(** Flushing the pending orders, in the order they were added. *)
Definition insert_orders (now : Z) (pending : list ProductionOrder.New.t)
    (os : list ProductionOrder.t) : list ProductionOrder.t :=
  fold_left (insert_order now) pending os.

(** [db.session.query(ProductionOrder).join(WorkCenter).join(User)]: inner
    joins along the two foreign keys, so an order whose work center or user
    row is missing is not returned. *)
Definition join_order (st : Store) (o : ProductionOrder.t) : option OrderRow :=
  w ← get_workcenter st (ProductionOrder.workcenter_id o);
  u ← get_user st (ProductionOrder.user_id o);
  Some (mkRow o w u).

Definition joined_orders (st : Store) : list OrderRow :=
  omap (join_order st) (orders st).

(** *** Ordering *)

Definition asc {K} (le : relation K) (key : OrderRow -> K) : relation OrderRow :=
  fun a b => le (key a) (key b).
Definition desc {K} (le : relation K) (key : OrderRow -> K) : relation OrderRow :=
  fun a b => le (key b) (key a).

#[global] Instance asc_dec {K} (le : relation K) `{!RelDecision le} key :
  RelDecision (asc le key).
Proof. intros a b. unfold asc. apply _. Defined.

#[global] Instance desc_dec {K} (le : relation K) `{!RelDecision le} key :
  RelDecision (desc le key).
Proof. intros a b. unfold desc. apply _. Defined.

Definition created_at (r : OrderRow) : Z := ProductionOrder.created_at (order r).
Definition quantity (r : OrderRow) : Z := ProductionOrder.quantity (order r).
Definition production_order (r : OrderRow) : string :=
  ProductionOrder.production_order (order r).

(** The sorting block shared by [reports] and [admin_reports]: a [sort]
    value that is none of the three column names adds no [ORDER BY]. *)
Definition order_by (sort_by order : string) (q : list OrderRow) : list OrderRow :=
  if bool_decide (sort_by = "created_at") then
    if bool_decide (order = "asc")
    then merge_sort (asc Z.le created_at) q
    else merge_sort (desc Z.le created_at) q
  else if bool_decide (sort_by = "production_order") then
    if bool_decide (order = "asc")
    then merge_sort (asc String.le production_order) q
    else merge_sort (desc String.le production_order) q
  else if bool_decide (sort_by = "quantity") then
    if bool_decide (order = "asc")
    then merge_sort (asc Z.le quantity) q
    else merge_sort (desc Z.le quantity) q
  else q.

Section Queries.
Context `{Backend}.

(** [value LIKE pattern]: [%] stands for any run of characters, [_] for
    any one character, every other character for itself up to the
    collation. No escape character is modelled. *)
Fixpoint like (pattern : string) : string -> bool :=
  match pattern with
  | EmptyString =>
      fun s => match s with EmptyString => true | _ => false end
  | String c p =>
      if Ascii.eqb c "%" then
        fix any (s : string) : bool :=
          like p s || match s with EmptyString => false | String _ r => any r end
      else if Ascii.eqb c "_" then
        fun s => match s with EmptyString => false | String _ r => like p r end
      else
        fun s => match s with
                 | EmptyString => false
                 | String d r => like_eq c d && like p r
                 end
  end.

(** [column.contains(term)]: the mapper renders it as
    [column LIKE '%' || term || '%'], the term passed as it is. *)
Definition contains (column term : string) : bool :=
  like ("%" +:+ term +:+ "%") column.

(** The query of [reports] and [admin_reports] before it is ordered:
    the join, filtered when a search term is given. *)
Definition report_rows (st : Store) (search : string) : list OrderRow :=
  let q := joined_orders st in
  if Py.truthy search
  then filter (fun r => contains (production_order r) search) q
  else q.

(** The query of [reports] and [admin_reports]. *)
Definition report_query (st : Store) (search sort_by order : string)
    : list OrderRow :=
  order_by sort_by order (report_rows st search).

End Queries.

(** ** The handlers *)

Section Handlers.
Context `{Backend}.

(** [db.session.commit()] of the change from [old] to [new]; on an
    exception the handlers roll back, which leaves [old]. *)
Definition commit (old new : Store) : Try Store :=
  match commit_error old new with
  | None => Ok new
  | Some text => Raise (CommitError text)
  end.

(** Modelled from the spec: [User.check_password] and [User.set_password]
    of [models.py] verify against, and replace, the stored hash. *)
Definition check_password (u : User.t) (password : string) : bool :=
  check_password_hash (User.password_hash u) password.

Definition to_login (st : Store) (sess : Session.t) : Result :=
  mkResult st sess [] (Redirect "login").

Definition access_denied (st : Store) (sess : Session.t) : Result :=
  mkResult st sess [("Access denied. Admin privileges required.", "error")]
           (Redirect "login").

(** A form key that is read with [request.form[...]] and is missing. *)
Definition bad_request (st : Store) (sess : Session.t) : Result :=
  mkResult st sess [] (Abort 400).

(** [get_or_404] found no row. *)
Definition not_found (st : Store) (sess : Session.t) : Result :=
  mkResult st sess [] (Abort 404).

(** ['user_id' not in session or not session.get('is_admin')] *)
Definition not_admin (sess : Session.t) : bool :=
  negb (Session.logged_in sess) || negb (Session.admin sess).

Definition login (st : Store) (sess : Session.t) (req : Request) : Result :=
  mkResult st sess [] (Render login_html).

Definition do_login (st : Store) (sess : Session.t) (req : Request) : Result :=
  match getitem "username" (form req) with
  | None => bad_request st sess
  | Some username =>
  match getitem "password" (form req) with
  | None => bad_request st sess
  | Some password =>
    let user :=
      find (fun u => bool_decide (User.username u = username) && User.is_active u)
           (users st) in
    let invalid :=
      mkResult st sess [("Invalid username or password", "error")]
               (Redirect "login") in
    match user with
    | Some u =>
        if check_password u password then
          mkResult st
            (Session.mk (Some (User.id u)) (Some (User.username u))
                        (Some (User.is_admin u)))
            []
            (if User.is_admin u then Redirect "admin_dashboard"
             else Redirect "menu")
        else invalid
    | None => invalid
    end
  end end.

Definition logout (st : Store) (sess : Session.t) (req : Request) : Result :=
  mkResult st Session.clear
           [("You have been logged out successfully", "success")]
           (Redirect "login").

Definition menu (st : Store) (sess : Session.t) (req : Request) : Result :=
  if negb (Session.logged_in sess) then to_login st sess
  else mkResult st sess [] (Render menu_html).

Definition active_workcenters (st : Store) : list WorkCenter.t :=
  filter (fun w => WorkCenter.is_active w) (workcenters st).

Definition in_orders (st : Store) (sess : Session.t) (req : Request) : Result :=
  if negb (Session.logged_in sess) then to_login st sess
  else mkResult st sess [] (Render (in_orders_html (active_workcenters st))).

Definition out_orders (st : Store) (sess : Session.t) (req : Request) : Result :=
  if negb (Session.logged_in sess) then to_login st sess
  else mkResult st sess [] (Render (out_orders_html (active_workcenters st))).

(** One turn of the loop of [save_orders] over [orders_data]: [pending]
    are the orders added to the session so far. *)
Definition save_entry (sess : Session.t) (order_type : string)
    (pending : list ProductionOrder.New.t) (order_data : string)
    : Try (list ProductionOrder.New.t) :=
  if Py.truthy order_data then
    match Py.split "|" order_data with
    | [workcenter_id; production_order; quantity] =>
        if negb (Py.truthy workcenter_id)
           || bool_decide (workcenter_id = EmptyString)
        then Ok pending
        else
          let production_order :=
            if Py.truthy production_order then Py.strip production_order
            else EmptyString in
          workcenter_id <~ match Py.int workcenter_id with
                           | Some n => Ok n
                           | None => Raise (ValueError workcenter_id)
                           end;;
          quantity <~ (if Py.truthy quantity then
                         match Py.int quantity with
                         | Some n => Ok n
                         | None => Raise (ValueError quantity)
                         end
                       else Ok 0);;
          user_id <~ match Session.user_id sess with
                     | Some uid => Ok uid
                     | None => Raise (KeyError "user_id")
                     end;;
          Ok (pending ++ [ProductionOrder.New.mk production_order workcenter_id
                            quantity order_type user_id])
    | _ => Ok pending
    end
  else Ok pending.

Fixpoint save_loop (sess : Session.t) (order_type : string)
    (pending : list ProductionOrder.New.t) (orders_data : list string)
    : Try (list ProductionOrder.New.t) :=
  match orders_data with
  | [] => Ok pending
  | order_data :: rest =>
      pending <~ save_entry sess order_type pending order_data;;
      save_loop sess order_type pending rest
  end.

(** The store once the pending orders are flushed. *)
Definition saved (now : Z) (pending : list ProductionOrder.New.t) (st : Store)
    : Store :=
  set_orders st (insert_orders now pending (orders st)).

(** The [try] block of [save_orders]: the loop, then the commit. *)
Definition save_batch (st : Store) (sess : Session.t) (now : Z)
    (order_type : string) (orders_data : list string) : Try Store :=
  pending <~ save_loop sess order_type [] orders_data;;
  commit st (saved now pending st).

Definition save_orders (st : Store) (sess : Session.t) (req : Request) : Result :=
  if negb (Session.logged_in sess) then to_login st sess
  else
    match getitem "order_type" (form req) with
    | None => bad_request st sess
    | Some order_type =>
        let orders_data := getlist "orders" (form req) in
        match save_batch st sess (now req) order_type orders_data with
        | Ok st' =>
            mkResult st' sess
              [(order_type +:+ " orders saved successfully!", "success")]
              (Redirect "menu")
        | Raise e =>
            mkResult st sess
              [("Error saving orders: " +:+ str_exn e, "error")]
              (Redirect "menu")
        end
    end.

Definition reports (st : Store) (sess : Session.t) (req : Request) : Result :=
  if negb (Session.logged_in sess) then to_login st sess
  else
    let search := get "search" EmptyString (args req) in
    let sort_by := get "sort" "created_at" (args req) in
    let order := get "order" "desc" (args req) in
    let orders := report_query st search sort_by order in
    mkResult st sess [] (Render (reports_html orders search sort_by order)).

Definition count {A} (l : list A) : Z := Z.of_nat (length l).

Definition admin_dashboard (st : Store) (sess : Session.t) (req : Request)
    : Result :=
  if not_admin sess then access_denied st sess
  else
    let total_users := count (filter (fun u => User.is_active u) (users st)) in
    let total_workcenters := count (active_workcenters st) in
    let total_in_orders :=
      count (filter (fun o => ProductionOrder.order_type o = "IN") (orders st)) in
    let total_out_orders :=
      count (filter (fun o => ProductionOrder.order_type o = "OUT") (orders st)) in
    let recent_orders :=
      take 10 (merge_sort (desc Z.le created_at) (joined_orders st)) in
    mkResult st sess []
      (Render (admin_dashboard_html total_users total_workcenters
                 total_in_orders total_out_orders recent_orders)).

Definition active_departments (st : Store) : list Department.t :=
  filter (fun d => Department.is_active d) (departments st).

Definition admin_users (st : Store) (sess : Session.t) (req : Request) : Result :=
  if not_admin sess then access_denied st sess
  else mkResult st sess []
         (Render (admin_users_html (users st) (active_departments st))).

Definition create_user (st : Store) (sess : Session.t) (req : Request) : Result :=
  if not_admin sess then to_login st sess
  else
    match getitem "username" (form req) with
    | None => bad_request st sess
    | Some username =>
    let name := get "name" EmptyString (form req) in
    let department := get "department" EmptyString (form req) in
    match getitem "password" (form req) with
    | None => bad_request st sess
    | Some password =>
      let is_admin := contains_key "is_admin" (form req) in
      let existing_user :=
        find (fun u => bool_decide (User.username u = username)) (users st) in
      match existing_user with
      | Some _ =>
          mkResult st sess [("Username already exists", "error")]
                   (Redirect "admin_users")
      | None =>
          let new_user :=
            User.mk (next_id (map User.id (users st))) username
                    (generate_password_hash password) name department
                    is_admin true in
          match commit st (set_users st (users st ++ [new_user])) with
          | Ok st' =>
              mkResult st' sess [("User created successfully", "success")]
                       (Redirect "admin_users")
          | Raise e =>
              mkResult st sess
                [("Error creating user: " +:+ str_exn e, "error")]
                (Redirect "admin_users")
          end
      end
    end end.

Definition edit_user (user_id : Z) (st : Store) (sess : Session.t)
    (req : Request) : Result :=
  if not_admin sess then to_login st sess
  else
    match get_user st user_id with
    | None => not_found st sess
    | Some user =>
    match getitem "username" (form req) with
    | None => bad_request st sess
    | Some username =>
    let name := get "name" EmptyString (form req) in
    let department := get "department" EmptyString (form req) in
    match getitem "password" (form req) with
    | None => bad_request st sess
    | Some password =>
      let password_hash :=
        if Py.truthy password then generate_password_hash password
        else User.password_hash user in
      let user' :=
        User.mk (User.id user) username password_hash name department
                (contains_key "is_admin" (form req))
                (contains_key "is_active" (form req)) in
      match commit st (set_users st (update_user user' (users st))) with
      | Ok st' =>
          mkResult st' sess [("User updated successfully", "success")]
                   (Redirect "admin_users")
      | Raise e =>
          mkResult st sess [("Error updating user: " +:+ str_exn e, "error")]
                   (Redirect "admin_users")
      end
    end end end.

Definition deactivate_user (u : User.t) : User.t :=
  User.mk (User.id u) (User.username u) (User.password_hash u) (User.name u)
          (User.department u) (User.is_admin u) false.

Definition delete_user (user_id : Z) (st : Store) (sess : Session.t)
    (req : Request) : Result :=
  if not_admin sess then to_login st sess
  else
    match get_user st user_id with
    | None => not_found st sess
    | Some user =>
        if bool_decide (Some (User.id user) = Session.user_id sess) then
          mkResult st sess [("Cannot delete your own account", "error")]
                   (Redirect "admin_users")
        else
          match commit st (set_users st (update_user (deactivate_user user)
                                                     (users st))) with
          | Ok st' =>
              mkResult st' sess [("User deleted successfully", "success")]
                       (Redirect "admin_users")
          | Raise e =>
              mkResult st sess
                [("Error deleting user: " +:+ str_exn e, "error")]
                (Redirect "admin_users")
          end
    end.

Definition admin_reports (st : Store) (sess : Session.t) (req : Request)
    : Result :=
  if not_admin sess then access_denied st sess
  else
    let search := get "search" EmptyString (args req) in
    let sort_by := get "sort" "created_at" (args req) in
    let order := get "order" "desc" (args req) in
    let orders := report_query st search sort_by order in
    mkResult st sess []
      (Render (admin_reports_html orders search sort_by order)).

(** *** Spreadsheet export *)

Definition headers : list string :=
  ["Production Order"; "Work Center"; "Quantity"; "Type"; "Name";
   "Department"; "Date & Time"].

Definition header_cell (header : string) : Cell :=
  mkCell (VStr header) true (Some "366092") (Some "center").

Definition plain_cell (v : CellValue) : Cell := mkCell v false None None.

(** [a or b] on strings *)
Definition str_or (a b : string) : string := if Py.truthy a then a else b.

Definition data_row (r : OrderRow) : list Cell :=
  [plain_cell (VStr (ProductionOrder.production_order (order r)));
   plain_cell (VStr (WorkCenter.name (workcenter r)));
   plain_cell (VInt (ProductionOrder.quantity (order r)));
   plain_cell (VStr (ProductionOrder.order_type (order r)));
   plain_cell (VStr (str_or (User.name (user r)) (User.username (user r))));
   plain_cell (VStr (str_or (User.department (user r)) "-"));
   plain_cell (VStr (strftime "%Y-%m-%d %H:%M:%S"
                              (ProductionOrder.created_at (order r))))].

(** The orders the export lists: no filter, newest first. *)
Definition export_query (st : Store) : list OrderRow :=
  merge_sort (desc Z.le created_at) (joined_orders st).

Definition max_column (grid : list (list Cell)) : nat :=
  foldr (fun r m => Nat.max (length r) m) 0%nat grid.

(** [ws.columns]: the grid by columns; a cell that was never written
    reads as empty. *)
Definition columns (grid : list (list Cell)) : list (list Cell) :=
  map (fun j => map (fun r => default (plain_cell VNone) (r !! j)) grid)
      (seq 0 (max_column grid)).

(** The letter of the column at index [j], for the first 26 columns. *)
Definition column_letter (j : nat) : string :=
  String (ascii_of_nat (65 + j)) EmptyString.

(** The inner loop of the width adjustment. *)
Definition max_length (column : list Cell) : Z :=
  fold_left (fun m cell =>
               if m <? Py.len (str_value (value cell))
               then Py.len (str_value (value cell)) else m)
            column 0.

Definition adjusted_width (column : list Cell) : Z :=
  Z.min (max_length column + 2) 50.

Definition export_sheet (st : Store) : Worksheet :=
  let grid := map header_cell headers :: map data_row (export_query st) in
  mkSheet "Production Orders Report" grid
          (imap (fun j column => (column_letter j, adjusted_width column))
                (columns grid)).

Definition export_excel (st : Store) (sess : Session.t) (req : Request) : Result :=
  if not_admin sess then to_login st sess
  else
    mkResult st sess []
      (Attachment (mkBook [export_sheet st])
         ("attachment; filename=production_orders_"
            +:+ strftime "%Y%m%d_%H%M%S" (now req) +:+ ".xlsx")
         "application/vnd.openxmlformats-officedocument.spreadsheetml.sheet").

(** *** Master data *)

Definition master_data (st : Store) (sess : Session.t) (req : Request) : Result :=
  if not_admin sess then access_denied st sess
  else mkResult st sess []
         (Render (master_data_html (workcenters st) (departments st))).

Definition create_workcenter (st : Store) (sess : Session.t) (req : Request)
    : Result :=
  if not_admin sess then to_login st sess
  else
    match getitem "name" (form req) with
    | None => bad_request st sess
    | Some name =>
        let new_workcenter :=
          WorkCenter.mk (next_id (map WorkCenter.id (workcenters st))) name true in
        match commit st (set_workcenters st (workcenters st ++ [new_workcenter])) with
        | Ok st' =>
            mkResult st' sess [("Work center created successfully", "success")]
                     (Redirect "master_data")
        | Raise e =>
            mkResult st sess
              [("Error creating work center: " +:+ str_exn e, "error")]
              (Redirect "master_data")
        end
    end.

Definition edit_workcenter (wc_id : Z) (st : Store) (sess : Session.t)
    (req : Request) : Result :=
  if not_admin sess then to_login st sess
  else
    match get_workcenter st wc_id with
    | None => not_found st sess
    | Some workcenter =>
    match getitem "name" (form req) with
    | None => bad_request st sess
    | Some name =>
        let workcenter' :=
          WorkCenter.mk (WorkCenter.id workcenter) name
                        (contains_key "is_active" (form req)) in
        match commit st (set_workcenters st
                           (update_workcenter workcenter' (workcenters st))) with
        | Ok st' =>
            mkResult st' sess [("Work center updated successfully", "success")]
                     (Redirect "master_data")
        | Raise e =>
            mkResult st sess
              [("Error updating work center: " +:+ str_exn e, "error")]
              (Redirect "master_data")
        end
    end end.

Definition delete_workcenter (wc_id : Z) (st : Store) (sess : Session.t)
    (req : Request) : Result :=
  if not_admin sess then to_login st sess
  else
    match get_workcenter st wc_id with
    | None => not_found st sess
    | Some workcenter =>
        let workcenter' :=
          WorkCenter.mk (WorkCenter.id workcenter) (WorkCenter.name workcenter)
                        false in
        match commit st (set_workcenters st
                           (update_workcenter workcenter' (workcenters st))) with
        | Ok st' =>
            mkResult st' sess [("Work center deleted successfully", "success")]
                     (Redirect "master_data")
        | Raise e =>
            mkResult st sess
              [("Error deleting work center: " +:+ str_exn e, "error")]
              (Redirect "master_data")
        end
    end.

Definition create_department (st : Store) (sess : Session.t) (req : Request)
    : Result :=
  if not_admin sess then to_login st sess
  else
    match getitem "name" (form req) with
    | None => bad_request st sess
    | Some name =>
        let new_department :=
          Department.mk (next_id (map Department.id (departments st))) name true in
        match commit st (set_departments st (departments st ++ [new_department])) with
        | Ok st' =>
            mkResult st' sess [("Department created successfully", "success")]
                     (Redirect "master_data")
        | Raise e =>
            mkResult st sess
              [("Error creating department: " +:+ str_exn e, "error")]
              (Redirect "master_data")
        end
    end.

Definition edit_department (dept_id : Z) (st : Store) (sess : Session.t)
    (req : Request) : Result :=
  if not_admin sess then to_login st sess
  else
    match get_department st dept_id with
    | None => not_found st sess
    | Some department =>
    match getitem "name" (form req) with
    | None => bad_request st sess
    | Some name =>
        let department' :=
          Department.mk (Department.id department) name
                        (contains_key "is_active" (form req)) in
        match commit st (set_departments st
                           (update_department department' (departments st))) with
        | Ok st' =>
            mkResult st' sess [("Department updated successfully", "success")]
                     (Redirect "master_data")
        | Raise e =>
            mkResult st sess
              [("Error updating department: " +:+ str_exn e, "error")]
              (Redirect "master_data")
        end
    end end.

Definition delete_department (dept_id : Z) (st : Store) (sess : Session.t)
    (req : Request) : Result :=
  if not_admin sess then to_login st sess
  else
    match get_department st dept_id with
    | None => not_found st sess
    | Some department =>
        let department' :=
          Department.mk (Department.id department) (Department.name department)
                        false in
        match commit st (set_departments st
                           (update_department department' (departments st))) with
        | Ok st' =>
            mkResult st' sess [("Department deleted successfully", "success")]
                     (Redirect "master_data")
        | Raise e =>
            mkResult st sess
              [("Error deleting department: " +:+ str_exn e, "error")]
              (Redirect "master_data")
        end
    end.

End Handlers.

(** *** The URL map *)

Module Route.
(** One constructor per [@app.route], with its URL arguments. *)
Inductive t :=
  | login | do_login | logout | menu | in_orders | out_orders | save_orders
  | reports | admin_dashboard | admin_users | create_user
  | edit_user (user_id : Z) | delete_user (user_id : Z)
  | admin_reports | export_excel | master_data
  | create_workcenter | edit_workcenter (wc_id : Z) | delete_workcenter (wc_id : Z)
  | create_department | edit_department (dept_id : Z)
  | delete_department (dept_id : Z).
End Route.

Definition handle `{Backend} (r : Route.t) : Store -> Session.t -> Request -> Result :=
  match r with
  | Route.login => login
  | Route.do_login => do_login
  | Route.logout => logout
  | Route.menu => menu
  | Route.in_orders => in_orders
  | Route.out_orders => out_orders
  | Route.save_orders => save_orders
  | Route.reports => reports
  | Route.admin_dashboard => admin_dashboard
  | Route.admin_users => admin_users
  | Route.create_user => create_user
  | Route.edit_user user_id => edit_user user_id
  | Route.delete_user user_id => delete_user user_id
  | Route.admin_reports => admin_reports
  | Route.export_excel => export_excel
  | Route.master_data => master_data
  | Route.create_workcenter => create_workcenter
  | Route.edit_workcenter wc_id => edit_workcenter wc_id
  | Route.delete_workcenter wc_id => delete_workcenter wc_id
  | Route.create_department => create_department
  | Route.edit_department dept_id => edit_department dept_id
  | Route.delete_department dept_id => delete_department dept_id
  end.

(** The handlers that test the admin flag besides the login. *)
Definition admin_only (r : Route.t) : bool :=
  match r with
  | Route.login | Route.do_login | Route.logout | Route.menu | Route.in_orders
  | Route.out_orders | Route.save_orders | Route.reports => false
  | _ => true
  end.

(** The session fails the test at the top of the handler of [r]. *)
Definition refused (r : Route.t) (sess : Session.t) : bool :=
  negb (Session.logged_in sess) || admin_only r && negb (Session.admin sess).

(** The messages flashed with the redirect to the login page. *)
Definition refusal_flashes (r : Route.t) : list (string * string) :=
  match r with
  | Route.admin_dashboard | Route.admin_users | Route.admin_reports
  | Route.master_data =>
      [("Access denied. Admin privileges required.", "error")]
  | Route.logout => [("You have been logged out successfully", "success")]
  | _ => []
  end.

(** An entry of the batch that splits on the bar into exactly three
    fields; the empty entry has one field. *)
Definition three_fields (order_data : string) : Prop :=
  length (Py.split "|" order_data) = 3%nat.

#[global] Instance three_fields_dec e : Decision (three_fields e).
Proof. unfold three_fields. apply _. Defined.

(** The request with the entries of [orders] that do not have three
    fields taken out of the form. *)
Definition without_malformed (req : Request) : Request :=
  mkRequest
    (filter (fun kv => fst kv = "orders" -> three_fields (snd kv)) (form req))
    (args req) (now req).

(** *** Substrings *)

(** [s.startswith(t)] *)
Fixpoint starts_with (t s : string) : bool :=
  match t, s with
  | EmptyString, _ => true
  | String _ _, EmptyString => false
  | String c t', String d s' => Ascii.eqb c d && starts_with t' s'
  end.

(** [t in s] *)
Fixpoint occurs_in (t s : string) : bool :=
  starts_with t s
  || match s with EmptyString => false | String _ s' => occurs_in t s' end.

(** [t] is a substring of [s]. *)
Definition substring (t s : string) : Prop :=
  exists before after, s = before +:+ t +:+ after.

(** The text has neither of the two [LIKE] wildcards. *)
Definition wildcard_free (t : string) : Prop :=
  Py.mem "%" t = false /\ Py.mem "_" t = false.

(** Every order refers to a work center and a user that exist. *)
Definition references_valid (st : Store) : Prop :=
  forall o, o ∈ orders st ->
    is_Some (get_workcenter st (ProductionOrder.workcenter_id o))
    /\ is_Some (get_user st (ProductionOrder.user_id o)).

(** The length of the longest stringified value of a column. *)
Definition longest (column : list Cell) : Z :=
  foldr Z.max 0 (map (fun cell => Py.len (str_value (value cell))) column).

(** *** Tables and sessions across requests *)

Inductive Table := Users | Departments | WorkCenters | Orders.

(** The table the handler of a route commits to, if any. *)
Definition writes (r : Route.t) : option Table :=
  match r with
  | Route.save_orders => Some Orders
  | Route.create_user | Route.edit_user _ | Route.delete_user _ => Some Users
  | Route.create_workcenter | Route.edit_workcenter _
  | Route.delete_workcenter _ => Some WorkCenters
  | Route.create_department | Route.edit_department _
  | Route.delete_department _ => Some Departments
  | _ => None
  end.

(** The user the session names has a row in the store. *)
Definition session_valid (st : Store) (sess : Session.t) : Prop :=
  forall uid, Session.user_id sess = Some uid -> is_Some (get_user st uid).

(** The form keys a handler reads with [request.form[...]]. *)
Definition required_keys (r : Route.t) : list string :=
  match r with
  | Route.do_login | Route.create_user | Route.edit_user _ =>
      ["username"; "password"]
  | Route.save_orders => ["order_type"]
  | Route.create_workcenter | Route.edit_workcenter _
  | Route.create_department | Route.edit_department _ => ["name"]
  | _ => []
  end.

(** The row a route with a key in its URL fetches with [get_or_404]:
    whether it is missing. *)
Definition row_missing (r : Route.t) (st : Store) : Prop :=
  match r with
  | Route.edit_user pk | Route.delete_user pk => get_user st pk = None
  | Route.edit_workcenter pk | Route.delete_workcenter pk =>
      get_workcenter st pk = None
  | Route.edit_department pk | Route.delete_department pk =>
      get_department st pk = None
  | _ => False
  end.

(** *** Batch entries *)

(** The text does not start with white space. *)
Definition no_lead (s : string) : Prop :=
  match s with EmptyString => True | String c _ => Py.isspace c = false end.

(** [sep.join(fields)] *)
Fixpoint join_fields (sep : ascii) (fields : list string) : string :=
  match fields with
  | [] => EmptyString
  | [w] => w
  | w :: ws => w +:+ String sep (join_fields sep ws)
  end.

(** [s.count(c)] for a character. *)
Fixpoint count_char (c : ascii) (s : string) : nat :=
  match s with
  | EmptyString => 0
  | String d r => (if Ascii.eqb d c then 1 else 0) + count_char c r
  end.

(** An entry with three fields and a work center whose work-center field,
    or whose non-blank quantity field, is not an integer literal. *)
Definition rejected (order_data : string) : Prop :=
  exists w p q,
    Py.split "|" order_data = [w; p; q]
    /\ w <> EmptyString
    /\ (Py.int w = None \/ (q <> EmptyString /\ Py.int q = None)).

(** A backend for running the handlers on examples: passwords are stored
    in the clear behind a prefix, every commit succeeds, [LIKE] compares
    characters exactly and a time prints as its number. *)
Definition plain_backend : Backend := {|
  check_password_hash h p := bool_decide (h = "plain:" +:+ p);
  generate_password_hash p := "plain:" +:+ p;
  commit_error _ _ := None;
  like_eq := Ascii.eqb;
  strftime _ t := Py.str_int t
|}.

(** The same backend with a store that refuses every commit. *)
Definition locked_backend : Backend := {|
  check_password_hash h p := bool_decide (h = "plain:" +:+ p);
  generate_password_hash p := "plain:" +:+ p;
  commit_error _ _ := Some "database is locked";
  like_eq := Ascii.eqb;
  strftime _ t := Py.str_int t
|}.

(** *** Stores and requests for the examples *)

Definition alice : User.t := User.mk 1 "alice" "plain:secret" "Alice" "Assembly" true true.
Definition bob : User.t := User.mk 2 "bob" "plain:hunter2" EmptyString EmptyString false true.
Definition carol : User.t := User.mk 3 "carol" "plain:pw" "Carol" "Paint" false false.

Definition lathe : WorkCenter.t := WorkCenter.mk 1 "Lathe" true.
Definition mill : WorkCenter.t := WorkCenter.mk 2 "Mill" true.

Definition empty_shop : Store :=
  mkStore [alice; bob; carol] [Department.mk 1 "Assembly" true] [lathe; mill] [].

Definition admin_session : Session.t := Session.mk (Some 1) (Some "alice") (Some true).
Definition user_session : Session.t := Session.mk (Some 2) (Some "bob") (Some false).

Definition no_request : Request := mkRequest [] [] 0.

Definition busy_shop : Store :=
  mkStore [alice; bob; carol] [Department.mk 1 "Assembly" true] [lathe; mill]
    [ProductionOrder.mk 1 "PO100" 1 50 "IN" 2 1000;
     ProductionOrder.mk 2 "PO300" 2 0 "IN" 2 3000;
     ProductionOrder.mk 3 "AB_7" 1 20 "OUT" 1 2000].

(** ** The interpreter primitives on examples *)

Example split_three : Py.split "|" "1|PO100|50" = ["1"; "PO100"; "50"].
Proof. reflexivity. Qed.

Example split_blank_tail : Py.split "|" "2|PO300|" = ["2"; "PO300"; EmptyString].
Proof. reflexivity. Qed.

Example int_padded : Py.int " -1_000 " = Some (-1000).
Proof. reflexivity. Qed.

Example int_rejects : Py.int "1__0" = None /\ Py.int "5x" = None /\ Py.int " " = None.
Proof. repeat split; reflexivity. Qed.

Example strip_both : Py.strip "  PO 7  " = "PO 7".
Proof. reflexivity. Qed.

Example repr_plain : Py.repr "5x" = "'5x'".
Proof. reflexivity. Qed.


(** ** Multi-dicts *)

Lemma getlist_cons key k v d :
  getlist key ((k, v) :: d) =
  if decide (k = key) then v :: getlist key d else getlist key d.
Proof.
  unfold getlist. rewrite filter_cons. simpl.
  destruct (decide (k = key)) as [Heq | Hne].
  - rewrite bool_decide_eq_true_2 by done. rewrite decide_True; done.
  - rewrite bool_decide_eq_false_2 by done. rewrite decide_False; [done | simpl; tauto].
Qed.

Lemma get_Some key default d v : getitem key d = Some v -> get key default d = v.
Proof. unfold get. by intros ->. Qed.

Lemma get_None key default d : getitem key d = None -> get key default d = default.
Proof. unfold get. by intros ->. Qed.

Lemma getlist_filter_other key (P : string -> Prop) `{!forall v, Decision (P v)}
    (other : string) d :
  key <> other ->
  getlist key (filter (fun kv => fst kv = other -> P (snd kv)) d) = getlist key d.
Proof.
  intros Hne. induction d as [| [k v] d IH]; [done |].
  rewrite filter_cons. simpl. destruct (decide (k = other -> P v)) as [Hk | Hk].
  - rewrite !getlist_cons. destruct (decide (k = key)); congruence.
  - rewrite getlist_cons. rewrite decide_False; [done |].
    intros ->. apply Hk. intros ->. done.
Qed.

Lemma getlist_filter_same key (P : string -> Prop) `{!forall v, Decision (P v)} d :
  getlist key (filter (fun kv => fst kv = key -> P (snd kv)) d)
  = filter P (getlist key d).
Proof.
  induction d as [| [k v] d IH]; [done |].
  rewrite filter_cons. simpl. rewrite getlist_cons.
  destruct (decide (k = key)) as [-> | Hne].
  - rewrite filter_cons. destruct (decide (P v)) as [Hv | Hv].
    + rewrite decide_True by tauto. rewrite getlist_cons, decide_True by done.
      by rewrite IH.
    + rewrite decide_False by tauto. done.
  - rewrite decide_True by tauto. rewrite getlist_cons, decide_False by done. done.
Qed.

(** ** Order entry *)

Section SaveOrders.
Context `{Backend}.

Lemma logged_in_user_id sess uid :
  Session.user_id sess = Some uid -> Session.logged_in sess = true.
Proof. unfold Session.logged_in. by intros ->. Qed.

(** An entry without exactly three fields leaves the pending orders as
    they are and raises nothing. *)
Lemma save_entry_skips sess order_type pending order_data :
  ~ three_fields order_data ->
  save_entry sess order_type pending order_data = Ok pending.
Proof.
  unfold three_fields, save_entry. intros Hlen.
  destruct (Py.truthy order_data); [| done].
  destruct (Py.split "|" order_data) as [| a [| b [| c [| d l]]]]; try done.
Qed.

Lemma save_loop_skips sess order_type orders_data :
  forall pending,
    save_loop sess order_type pending (filter three_fields orders_data)
    = save_loop sess order_type pending orders_data.
Proof.
  induction orders_data as [| e rest IH]; intros pending; [done |].
  rewrite filter_cons. destruct (decide (three_fields e)) as [He | He].
  - simpl. destruct (save_entry sess order_type pending e); simpl; [apply IH | done].
  - simpl. rewrite (save_entry_skips _ _ _ _ He). simpl. apply IH.
Qed.

(** An entry with three fields and an empty first one is skipped too. *)
Lemma save_entry_no_workcenter sess order_type pending order_data p q :
  Py.split "|" order_data = [EmptyString; p; q] ->
  save_entry sess order_type pending order_data = Ok pending.
Proof.
  unfold save_entry. intros ->. by destruct (Py.truthy order_data).
Qed.

(** What a well-formed entry adds: the code is trimmed, a blank quantity
    counts as 0, and the order is stamped with type and user. *)
Lemma save_entry_adds sess order_type pending order_data w p q wn qn uid :
  Py.split "|" order_data = [w; p; q] ->
  w <> EmptyString ->
  Py.int w = Some wn ->
  (if Py.truthy q then Py.int q else Some 0) = Some qn ->
  Session.user_id sess = Some uid ->
  save_entry sess order_type pending order_data
  = Ok (pending ++ [ProductionOrder.New.mk (Py.strip p) wn qn order_type uid]).
Proof.
  unfold save_entry. intros Hsplit Hw Hwn Hqn Huid.
  assert (Py.truthy order_data = true) as ->.
  { destruct order_data; [| done]. simpl in Hsplit. congruence. }
  rewrite Hsplit. destruct w as [| c w]; [done |]. simpl.
  rewrite Hwn. simpl.
  assert ((if Py.truthy p then Py.strip p else EmptyString) = Py.strip p) as ->.
  { by destruct p. }
  destruct (Py.truthy q).
  - rewrite Hqn. simpl. by rewrite Huid.
  - injection Hqn as <-. simpl. by rewrite Huid.
Qed.

Lemma save_orders_without_malformed st sess req :
  save_orders st sess (without_malformed req) = save_orders st sess req.
Proof.
  unfold save_orders, without_malformed, getitem, save_batch. simpl.
  rewrite getlist_filter_other by done.
  rewrite (getlist_filter_same "orders" three_fields).
  destruct (negb (Session.logged_in sess)); [done |].
  destruct (head (getlist "order_type" (form req))) as [order_type |]; [| done].
  by rewrite save_loop_skips.
Qed.

(** The outcome of [save_orders] for a logged-in user, by the outcome
    of its [try] block. *)
Lemma save_orders_outcome st sess req order_type :
  Session.logged_in sess = true ->
  getitem "order_type" (form req) = Some order_type ->
  save_orders st sess req =
  match save_batch st sess (now req) order_type (getlist "orders" (form req)) with
  | Ok st' =>
      mkResult st' sess
        [(order_type +:+ " orders saved successfully!", "success")]
        (Redirect "menu")
  | Raise e =>
      mkResult st sess [("Error saving orders: " +:+ str_exn e, "error")]
               (Redirect "menu")
  end.
Proof. unfold save_orders. by intros -> ->. Qed.

Lemma save_batch_ok st sess now order_type orders_data pending :
  save_loop sess order_type [] orders_data = Ok pending ->
  commit_error st (saved now pending st) = None ->
  save_batch st sess now order_type orders_data = Ok (saved now pending st).
Proof. unfold save_batch, commit. intros -> Hc. simpl. by rewrite Hc. Qed.

Lemma orders_saved now pending st :
  orders (saved now pending st) = insert_orders now pending (orders st).
Proof. done. Qed.

End SaveOrders.

Lemma insert_orders_appends now pending :
  forall os,
    exists added,
      insert_orders now pending os = os ++ added
      /\ map as_new added = pending
      /\ Forall (fun o => ProductionOrder.created_at o = now) added.
Proof.
  induction pending as [| n pending IH]; intros os.
  - exists []. by rewrite app_nil_r.
  - destruct (IH (insert_order now os n)) as (added & Heq & Hnew & Hat).
    change (insert_orders now (n :: pending) os)
      with (insert_orders now pending (insert_order now os n)).
    rewrite Heq. unfold insert_order.
    eexists (_ :: added). rewrite <- app_assoc. simpl. split; [done |]. split.
    + rewrite Hnew. by destruct n.
    + by constructor.
Qed.

(** C1. With a logged-in user [uid] and the batch
    ["1|PO100|50"; "|PO200|10"; "2|PO300|"] of type [order_type], and the
    commit not raising, [save_orders] appends exactly two orders to the
    table: the entry with the empty work-center field is skipped, the
    first order has quantity 50, the second (blank quantity) has 0, the
    codes are the trimmed texts, and both carry [uid] and [order_type]. *)
Theorem save_orders_three_entries `{Backend} st sess req uid order_type :
  Session.user_id sess = Some uid ->
  getitem "order_type" (form req) = Some order_type ->
  getlist "orders" (form req) = ["1|PO100|50"; "|PO200|10"; "2|PO300|"] ->
  let pending := [ProductionOrder.New.mk (Py.strip "PO100") 1 50 order_type uid;
                  ProductionOrder.New.mk (Py.strip "PO300") 2 0 order_type uid] in
  commit_error st (saved (now req) pending st) = None ->
  let res := save_orders st sess req in
  let first :=
    ProductionOrder.mk (next_id (map ProductionOrder.id (orders st)))
      "PO100" 1 50 order_type uid (now req) in
  let second :=
    ProductionOrder.mk (next_id (map ProductionOrder.id (orders st ++ [first])))
      "PO300" 2 0 order_type uid (now req) in
  orders (store res) = orders st ++ [first; second]
  /\ users (store res) = users st
  /\ departments (store res) = departments st
  /\ workcenters (store res) = workcenters st
  /\ session res = sess
  /\ flashes res = [(order_type +:+ " orders saved successfully!", "success")]
  /\ response res = Redirect "menu".
Proof.
  intros Huid Htype Hdata pending Hcommit res first second.
  assert (save_loop sess order_type [] (getlist "orders" (form req)) = Ok pending)
    as Hloop.
  { rewrite Hdata. unfold save_loop, save_entry. simpl. rewrite Huid. done. }
  subst res. rewrite (save_orders_outcome _ _ _ order_type)
    by eauto using logged_in_user_id.
  rewrite (save_batch_ok _ _ _ _ _ pending) by done. simpl.
  unfold insert_order. simpl. rewrite <- app_assoc. done.
Qed.

Lemma save_orders_three_entries_witness :
  let req := mkRequest [("order_type", "IN"); ("orders", "1|PO100|50");
                        ("orders", "|PO200|10"); ("orders", "2|PO300|")] [] 1000 in
  let res := @save_orders plain_backend empty_shop user_session req in
  orders (store res) =
    [ProductionOrder.mk 1 "PO100" 1 50 "IN" 2 1000;
     ProductionOrder.mk 2 "PO300" 2 0 "IN" 2 1000]
  /\ flashes res = [("IN orders saved successfully!", "success")].
Proof.
  intros req res.
  destruct (@save_orders_three_entries plain_backend empty_shop user_session req
              2 "IN" eq_refl eq_refl eq_refl eq_refl)
    as (Horders & _ & _ & _ & _ & Hflash & _).
  split; [exact Horders | exact Hflash].
Defined.

(** C2. For a logged-in user and a batch with its order type,
    [save_orders] is all-or-nothing: either the loop went through, the
    commit did not raise, every pending order of the batch is appended to
    the table in one commit and the success message is flashed; or an
    exception [e] was raised in the [try] block, the store is exactly as
    before and the one flash is the error message with [str(e)]. The
    response is the redirect to the menu either way. *)
Theorem save_orders_all_or_nothing `{Backend} st sess req order_type :
  Session.logged_in sess = true ->
  getitem "order_type" (form req) = Some order_type ->
  let res := save_orders st sess req in
  let orders_data := getlist "orders" (form req) in
  response res = Redirect "menu" /\ session res = sess
  /\ ((exists pending added,
         save_loop sess order_type [] orders_data = Ok pending
         /\ commit_error st (saved (now req) pending st) = None
         /\ store res = saved (now req) pending st
         /\ orders (store res) = orders st ++ added
         /\ map as_new added = pending
         /\ flashes res = [(order_type +:+ " orders saved successfully!", "success")])
      \/
      (exists e,
         save_batch st sess (now req) order_type orders_data = Raise e
         /\ store res = st
         /\ flashes res = [("Error saving orders: " +:+ str_exn e, "error")])).
Proof.
  intros Hin Htype res orders_data. subst res.
  rewrite (save_orders_outcome _ _ _ order_type) by done.
  fold orders_data.
  destruct (save_batch st sess (now req) order_type orders_data) as [st' | e] eqn:Hb.
  - split; [done |]. split; [done |]. left.
    unfold save_batch in Hb.
    destruct (save_loop sess order_type [] orders_data) as [pending | e']; [| done].
    simpl in Hb. unfold commit in Hb.
    destruct (commit_error st (saved (now req) pending st)) eqn:Hc; [done |].
    injection Hb as <-.
    destruct (insert_orders_appends (now req) pending (orders st))
      as (added & Heq & Hnew & _).
    exists pending, added. repeat split; try done.
  - split; [done |]. split; [done |]. right. by exists e.
Qed.

Example save_orders_rolls_back :
  let req := mkRequest [("order_type", "IN"); ("orders", "1|PO7|3")] [] 1000 in
  @save_orders locked_backend empty_shop user_session req
  = mkResult empty_shop user_session
      [("Error saving orders: database is locked", "error")] (Redirect "menu").
Proof. reflexivity. Qed.

Lemma save_orders_all_or_nothing_witness :
  let req := mkRequest [("order_type", "OUT"); ("orders", "1|PO7|3");
                        ("orders", "x|PO8|4")] [] 1000 in
  let res := @save_orders plain_backend empty_shop user_session req in
  store res = empty_shop
  /\ flashes res =
       [("Error saving orders: invalid literal for int() with base 10: 'x'",
         "error")].
Proof.
  intros req res.
  destruct (@save_orders_all_or_nothing plain_backend empty_shop user_session req
              "OUT" eq_refl eq_refl)
    as (_ & _ & [(pending & added & Hloop & _) | (e & Hb & Hst & Hfl)]).
  - discriminate Hloop.
  - injection Hb as <-. split; [exact Hst | exact Hfl].
Defined.

(** C9. Entries of the batch that do not split on the bar into exactly
    three fields are skipped in silence: [save_orders] answers the batch as
    it answers the batch without them, and when the three-field entries
    alone go through the loop and their commit does not raise, exactly
    their orders are committed and the success message is flashed. *)
Theorem save_orders_skips_malformed `{Backend} st sess req :
  save_orders st sess req = save_orders st sess (without_malformed req)
  /\ forall order_type pending,
       Session.logged_in sess = true ->
       getitem "order_type" (form req) = Some order_type ->
       save_loop sess order_type []
         (filter three_fields (getlist "orders" (form req))) = Ok pending ->
       commit_error st (saved (now req) pending st) = None ->
       save_orders st sess req =
       mkResult (saved (now req) pending st) sess
         [(order_type +:+ " orders saved successfully!", "success")]
         (Redirect "menu").
Proof.
  split; [by rewrite save_orders_without_malformed |].
  intros order_type pending Hin Htype Hloop Hcommit.
  rewrite save_loop_skips in Hloop.
  rewrite (save_orders_outcome _ _ _ order_type) by done.
  by rewrite (save_batch_ok _ _ _ _ _ pending).
Qed.

Lemma save_orders_skips_malformed_witness :
  let req := mkRequest [("order_type", "IN"); ("orders", "1|PO100");
                        ("orders", "1|PO100|50|extra"); ("orders", "2|PO9|7")]
                       [] 1000 in
  let res := @save_orders plain_backend empty_shop user_session req in
  orders (store res) = [ProductionOrder.mk 1 "PO9" 2 7 "IN" 2 1000]
  /\ flashes res = [("IN orders saved successfully!", "success")].
Proof.
  intros req res. subst res.
  destruct (@save_orders_skips_malformed plain_backend empty_shop user_session req)
    as [_ Hok].
  rewrite (Hok "IN" [ProductionOrder.New.mk "PO9" 2 7 "IN" 2]
             eq_refl eq_refl eq_refl eq_refl).
  split; reflexivity.
Defined.


(** ** The guard at the top of the handlers *)

Lemma refused_not_admin r sess :
  refused r sess = true -> admin_only r = true -> not_admin sess = true.
Proof. unfold refused, not_admin. intros Href Hr. by rewrite Hr in Href. Qed.

Lemma refused_not_logged_in r sess :
  refused r sess = true -> admin_only r = false ->
  negb (Session.logged_in sess) = true.
Proof.
  unfold refused. intros Href Hr.
  by rewrite Hr, andb_false_l, orb_false_r in Href.
Qed.

(** C3, as the handlers have it. For every handler but the login page and
    the login POST, a session that fails the handler's test (no logged-in
    user, or no admin flag for an admin-only handler) leaves the store as
    it is and is answered by the redirect to the login page, never by an
    error response. A message is flashed with it only by the four admin
    pages (dashboard, users, reports, master data) and by [logout], which
    has no test, flashes its own message and clears the session; every
    other handler redirects without a message and leaves the session. *)
Theorem refusal_redirects_to_login `{Backend} r st sess req :
  r <> Route.login -> r <> Route.do_login ->
  refused r sess = true ->
  let res := handle r st sess req in
  store res = st
  /\ response res = Redirect "login"
  /\ flashes res = refusal_flashes r
  /\ session res = match r with Route.logout => Session.clear | _ => sess end.
Proof.
  intros Hlogin Hpost Href res. subst res.
  destruct r; try done; simpl;
    first
      [ (* handlers that only ask for a login *)
        pose proof (refused_not_logged_in _ _ Href eq_refl) as Hg;
        unfold menu, in_orders, out_orders, save_orders, reports;
        rewrite Hg; done
      | (* admin-only handlers *)
        pose proof (refused_not_admin _ _ Href eq_refl) as Hg;
        unfold admin_dashboard, admin_users, create_user, edit_user, delete_user,
          admin_reports, export_excel, master_data, create_workcenter,
          edit_workcenter, delete_workcenter, create_department,
          edit_department, delete_department;
        rewrite Hg; done
      | unfold logout; done ].
Qed.

Lemma refusal_redirects_to_login_witness :
  let res := @handle plain_backend (Route.delete_user 2) empty_shop user_session
               no_request in
  store res = empty_shop /\ response res = Redirect "login" /\ flashes res = [].
Proof.
  intros res.
  destruct (@refusal_redirects_to_login plain_backend (Route.delete_user 2)
              empty_shop user_session no_request
              ltac:(discriminate) ltac:(discriminate) eq_refl)
    as (Hst & Hresp & Hfl & _).
  split; [exact Hst | split; [exact Hresp | exact Hfl]].
Defined.

(** C3 as stated fails at [menu] without a session: the test fails, the
    answer is the redirect to the login page, and no message is flashed
    with it. *)
Lemma menu_refusal_has_no_flash :
  let res := @handle plain_backend Route.menu empty_shop Session.clear no_request in
  refused Route.menu Session.clear = true
  /\ response res = Redirect "login"
  /\ flashes res = [].
Proof. repeat split. Qed.

(** ** Users *)

Section Users.
Context `{Backend}.

Lemma get_user_id st pk u : get_user st pk = Some u -> User.id u = pk.
Proof.
  unfold get_user. intros Hf. apply find_some in Hf as [_ Hid].
  by apply bool_decide_eq_true_1 in Hid.
Qed.

Lemma get_user_elem_of st pk u : get_user st pk = Some u -> u ∈ users st.
Proof.
  unfold get_user. intros Hf. apply find_some in Hf as [Hin _].
  by apply list_elem_of_In.
Qed.

(** With distinct user names, the row [filter_by(username=...)] finds
    first is the only one of that name. *)
Lemma unique_username (us : list User.t) u v :
  NoDup (map User.username us) ->
  u ∈ us -> v ∈ us -> User.username u = User.username v -> u = v.
Proof.
  induction us as [| w us IH]; intros Hnd Hu Hv Heq.
  - by apply elem_of_nil in Hu.
  - simpl in Hnd. apply NoDup_cons in Hnd as [Hw Hnd].
    apply elem_of_cons in Hu as [-> | Hu]; apply elem_of_cons in Hv as [-> | Hv].
    + done.
    + exfalso. apply Hw. rewrite Heq. apply list_elem_of_fmap. by exists v.
    + exfalso. apply Hw. rewrite <- Heq. apply list_elem_of_fmap. by exists u.
    + by apply IH.
Qed.

Lemma update_user_ids u' us : map User.id (update_user u' us) = map User.id us.
Proof.
  unfold update_user. rewrite map_map. apply map_ext. intros u.
  by case_bool_decide.
Qed.

Lemma find_update_user_same u' us u :
  find (fun v => bool_decide (User.id v = User.id u')) us = Some u ->
  find (fun v => bool_decide (User.id v = User.id u')) (update_user u' us)
  = Some u'.
Proof.
  induction us as [| w us IH]; [done |]. simpl.
  destruct (bool_decide (User.id w = User.id u')) eqn:Hw.
  - intros _. simpl. by rewrite bool_decide_eq_true_2.
  - intros Hf. rewrite Hw. by apply IH.
Qed.

Lemma find_update_user_other u' us pk :
  pk <> User.id u' ->
  find (fun v => bool_decide (User.id v = pk)) (update_user u' us)
  = find (fun v => bool_decide (User.id v = pk)) us.
Proof.
  intros Hne. induction us as [| w us IH]; [done |]. simpl.
  destruct (bool_decide (User.id w = User.id u')) eqn:Hw.
  - apply bool_decide_eq_true_1 in Hw.
    rewrite (bool_decide_eq_false_2 (User.id u' = pk)) by congruence.
    rewrite (bool_decide_eq_false_2 (User.id w = pk)) by congruence.
    apply IH.
  - destruct (bool_decide (User.id w = pk)); [done | apply IH].
Qed.

End Users.

(** C4. A login POST with both fields, on a store whose user names are
    distinct. If an active user has the submitted name and the password
    verifies against that user's hash, the session holds that user's id,
    name and admin flag and the answer is the redirect to the admin
    dashboard for an admin and to the menu otherwise. If no active user of
    that name passes the check (wrong password, unknown name or inactive
    user), the answer is the redirect to the login page with the error
    flash and the session is left as it was. The store never changes. *)
Theorem do_login_outcome `{Backend} st sess req username password :
  getitem "username" (form req) = Some username ->
  getitem "password" (form req) = Some password ->
  NoDup (map User.username (users st)) ->
  let res := do_login st sess req in
  store res = st
  /\ (forall u,
        u ∈ users st -> User.is_active u = true ->
        User.username u = username -> check_password u password = true ->
        session res = Session.mk (Some (User.id u)) (Some (User.username u))
                                 (Some (User.is_admin u))
        /\ flashes res = []
        /\ response res = if User.is_admin u then Redirect "admin_dashboard"
                          else Redirect "menu")
  /\ ((forall u,
         u ∈ users st -> User.is_active u = true ->
         User.username u = username -> check_password u password = false) ->
      session res = sess
      /\ flashes res = [("Invalid username or password", "error")]
      /\ response res = Redirect "login").
Proof.
  intros Hname Hpass Hnd res. subst res. unfold do_login.
  rewrite Hname, Hpass.
  destruct (find _ (users st)) as [v |] eqn:Hfind.
  - apply find_some in Hfind as [Hv Hmatch]. apply list_elem_of_In in Hv.
    apply andb_prop in Hmatch as [Hvname Hvact].
    apply bool_decide_eq_true_1 in Hvname.
    split; [by destruct (check_password v password) |]. split.
    + intros u Hu Hact Huname Hcheck.
      assert (v = u) as -> by (eapply unique_username; eauto; congruence).
      by rewrite Hcheck.
    + intros Hwrong. by rewrite (Hwrong v Hv Hvact Hvname).
  - split; [done |]. split; [| done].
    intros u Hu Hact Huname Hcheck. exfalso.
    apply list_elem_of_In in Hu.
    pose proof (find_none _ _ Hfind u Hu) as Hno. simpl in Hno.
    rewrite Hact, bool_decide_eq_true_2 in Hno; done.
Qed.

Lemma do_login_outcome_witness :
  let req := mkRequest [("username", "bob"); ("password", "hunter2")] [] 0 in
  let res := @do_login plain_backend empty_shop Session.clear req in
  session res = user_session /\ response res = Redirect "menu".
Proof.
  intros req res.
  destruct (@do_login_outcome plain_backend empty_shop Session.clear req
              "bob" "hunter2" eq_refl eq_refl)
    as (_ & Hgood & _).
  { apply (bool_decide_unpack _). exact I. }
  destruct (Hgood bob) as (Hsess & _ & Hresp); try reflexivity.
  { apply list_elem_of_In. simpl. auto. }
  split; [exact Hsess | exact Hresp].
Defined.

Example do_login_admin :
  let req := mkRequest [("username", "alice"); ("password", "secret")] [] 0 in
  @do_login plain_backend empty_shop Session.clear req
  = mkResult empty_shop admin_session [] (Redirect "admin_dashboard").
Proof. reflexivity. Qed.

Example do_login_inactive :
  let req := mkRequest [("username", "carol"); ("password", "pw")] [] 0 in
  @do_login plain_backend empty_shop Session.clear req
  = mkResult empty_shop Session.clear [("Invalid username or password", "error")]
             (Redirect "login").
Proof. reflexivity. Qed.

(** C5. An admin deletes the user [target], a row of the table. When
    [target] is the session's own user id the request fails: the error
    message is flashed and the store, hence every field of every record,
    is as before. For any other [target], the commit not raising, the row
    is still there under the same key with [is_active] false and its other
    fields as they were, no row is removed and no other row changes. *)
Theorem delete_user_outcome `{Backend} st sess req target u :
  not_admin sess = false ->
  get_user st target = Some u ->
  let res := delete_user target st sess req in
  (Session.user_id sess = Some target ->
   res = mkResult st sess [("Cannot delete your own account", "error")]
                  (Redirect "admin_users"))
  /\ (Session.user_id sess <> Some target ->
      commit_error st (set_users st (update_user (deactivate_user u) (users st)))
        = None ->
      get_user (store res) target
        = Some (User.mk (User.id u) (User.username u) (User.password_hash u)
                        (User.name u) (User.department u) (User.is_admin u) false)
      /\ map User.id (users (store res)) = map User.id (users st)
      /\ (forall pk, pk <> target -> get_user (store res) pk = get_user st pk)
      /\ departments (store res) = departments st
      /\ workcenters (store res) = workcenters st
      /\ orders (store res) = orders st
      /\ flashes res = [("User deleted successfully", "success")]
      /\ response res = Redirect "admin_users").
Proof.
  intros Hadmin Hget res. subst res. unfold delete_user.
  rewrite Hadmin, Hget. pose proof (get_user_id _ _ _ Hget) as Hid.
  split.
  - intros Hself. by rewrite bool_decide_eq_true_2 by congruence.
  - intros Hother Hcommit. rewrite bool_decide_eq_false_2 by congruence.
    unfold commit. rewrite Hcommit. simpl.
    split; [| split; [| split]]; try done.
    + unfold get_user in *. simpl. rewrite <- Hid in *.
      by apply (find_update_user_same (deactivate_user u)) in Hget.
    + apply update_user_ids.
    + intros pk Hpk. unfold get_user. simpl.
      apply find_update_user_other. simpl. congruence.
Qed.

Lemma delete_user_outcome_witness :
  let res := @delete_user plain_backend 1 empty_shop admin_session no_request in
  store res = empty_shop
  /\ flashes res = [("Cannot delete your own account", "error")].
Proof.
  intros res.
  destruct (@delete_user_outcome plain_backend empty_shop admin_session no_request
              1 alice eq_refl eq_refl) as [Hself _].
  subst res. rewrite (Hself eq_refl). split; reflexivity.
Defined.

Example delete_user_other :
  users (store (@delete_user plain_backend 2 empty_shop admin_session no_request))
  = [alice; User.mk 2 "bob" "plain:hunter2" EmptyString EmptyString false false;
     carol].
Proof. reflexivity. Qed.

(** C8. An admin edits the user [target]. If the row exists and the form
    carries a user name and an empty password, the stored password hash of
    the row is the same after the request, and, the commit not raising,
    the row's user name, name, department, admin flag and active flag are
    those of the form, the other rows being untouched. If no row has the
    key [target], the answer is the not-found response and the store is as
    before. *)
Theorem edit_user_blank_password `{Backend} st sess req target :
  not_admin sess = false ->
  let res := edit_user target st sess req in
  (forall u username,
     get_user st target = Some u ->
     getitem "username" (form req) = Some username ->
     getitem "password" (form req) = Some EmptyString ->
     let edited :=
       User.mk target username (User.password_hash u)
               (get "name" EmptyString (form req))
               (get "department" EmptyString (form req))
               (contains_key "is_admin" (form req))
               (contains_key "is_active" (form req)) in
     User.password_hash <$> get_user (store res) target
       = Some (User.password_hash u)
     /\ (commit_error st (set_users st (update_user edited (users st))) = None ->
         get_user (store res) target = Some edited
         /\ map User.id (users (store res)) = map User.id (users st)
         /\ (forall pk, pk <> target -> get_user (store res) pk = get_user st pk)
         /\ flashes res = [("User updated successfully", "success")]))
  /\ (get_user st target = None ->
      response res = Abort 404 /\ store res = st /\ flashes res = []).
Proof.
  intros Hadmin res. subst res. split.
  - intros u username Hget Hname Hpass edited.
    unfold edit_user. rewrite Hadmin, Hget, Hname, Hpass. simpl Py.truthy. cbv iota.
    pose proof (get_user_id _ _ _ Hget) as Hid. rewrite Hid. fold edited.
    assert (get_user (set_users st (update_user edited (users st))) target
            = Some edited) as Hnew.
    { unfold get_user in *. simpl.
      change target with (User.id edited) at 1.
      apply (find_update_user_same edited _ u). exact Hget. }
    unfold commit.
    destruct (commit_error st (set_users st (update_user edited (users st))))
      as [text |] eqn:Hc; simpl.
    + split; [by rewrite Hget | done].
    + split; [by rewrite Hnew |]. intros _.
      split; [done |]. split; [apply update_user_ids |]. split; [| done].
      intros pk Hpk. unfold get_user. simpl.
      apply find_update_user_other. simpl. congruence.
  - unfold edit_user. rewrite Hadmin. by intros ->.
Qed.

Lemma edit_user_blank_password_witness :
  let req := mkRequest [("username", "robert"); ("name", "Bob"); ("password", EmptyString);
                        ("is_active", "on")] [] 0 in
  let res := @edit_user plain_backend 2 empty_shop admin_session req in
  get_user (store res) 2
  = Some (User.mk 2 "robert" "plain:hunter2" "Bob" EmptyString false true).
Proof.
  intros req res.
  destruct (@edit_user_blank_password plain_backend empty_shop admin_session req 2
              eq_refl) as [Hedit _].
  destruct (Hedit bob "robert" eq_refl eq_refl eq_refl) as [_ Hfields].
  destruct (Hfields eq_refl) as [Hrow _]. exact Hrow.
Defined.

Example edit_user_rolls_back :
  let req := mkRequest [("username", "robert"); ("password", EmptyString)] [] 0 in
  @edit_user locked_backend 2 empty_shop admin_session req
  = mkResult empty_shop admin_session
      [("Error updating user: database is locked", "error")]
      (Redirect "admin_users").
Proof. reflexivity. Qed.

Example edit_user_missing :
  @edit_user plain_backend 9 empty_shop admin_session no_request
  = mkResult empty_shop admin_session [] (Abort 404).
Proof. reflexivity. Qed.

(** ** Substrings and [LIKE] *)

Lemma starts_with_spec t s :
  starts_with t s = true <-> exists after, s = t +:+ after.
Proof.
  revert s. induction t as [| c t IH]; intros s.
  - simpl. split; [intros _; by exists s | done].
  - destruct s as [| d s]; simpl.
    + split; [done | intros [after Heq]; done].
    + rewrite andb_true_iff, IH, Ascii.eqb_eq. split.
      * intros [-> [after ->]]. by exists after.
      * intros [after Heq]. injection Heq as -> ->. split; [done | by exists after].
Qed.

Lemma occurs_in_spec t s : occurs_in t s = true <-> substring t s.
Proof.
  unfold substring. induction s as [| d s IH].
  - simpl. rewrite orb_false_r, starts_with_spec. split.
    + intros [after Heq]. by exists EmptyString, after.
    + intros (before & after & Heq). destruct before; [by exists after |].
      discriminate Heq.
  - cbn [occurs_in]. rewrite orb_true_iff, IH, starts_with_spec. split.
    + intros [[after Heq] | (before & after & Heq)].
      * by exists EmptyString, after.
      * exists (String d before), after. simpl. by rewrite Heq.
    + intros (before & after & Heq). destruct before as [| c before].
      * left. by exists after.
      * right. injection Heq as -> ->. by exists before, after.
Qed.

Section Like.
Context `{Backend}.

Lemma like_percent_nil s :
  like (String "%" EmptyString) s = true.
Proof. induction s as [| c s IH]; [done |]. simpl in *. exact IH. Qed.

Lemma like_percent_cons p s :
  like (String "%" p) s
  = like p s
    || match s with EmptyString => false | String _ r => like (String "%" p) r end.
Proof. by destruct s. Qed.

(** Under an exact collation a pattern without wildcards, followed by
    [%], matches the texts that start with it. *)
Lemma like_prefix t :
  (forall a b, like_eq a b = Ascii.eqb a b) ->
  wildcard_free t ->
  forall s, like (t +:+ "%") s = starts_with t s.
Proof.
  intros Hexact. induction t as [| c t IH]; intros [Hp Hu] s.
  - apply like_percent_nil.
  - cbn [Py.mem] in Hp, Hu. apply orb_false_elim in Hp as [Hcp Hp].
    apply orb_false_elim in Hu as [Hcu Hu].
    change (String c t +:+ "%") with (String c (t +:+ "%")).
    cbn [like starts_with].
    rewrite (Ascii.eqb_sym c "%"), Hcp, (Ascii.eqb_sym c "_"), Hcu.
    destruct s as [| d s]; [done |]. rewrite Hexact. f_equal.
    by apply IH.
Qed.

(** [contains] under an exact collation, for a term without wildcards,
    is the substring test. *)
Lemma contains_occurs_in column term :
  (forall a b, like_eq a b = Ascii.eqb a b) ->
  wildcard_free term ->
  contains column term = occurs_in term column.
Proof.
  intros Hexact Hfree. unfold contains.
  change ("%" +:+ term +:+ "%") with (String "%" (term +:+ "%")).
  induction column as [| d s IH].
  - rewrite like_percent_cons, like_prefix by done. done.
  - rewrite like_percent_cons, like_prefix by done. cbn [occurs_in].
    by rewrite IH.
Qed.

(** Under an exact collation a text that starts with the pattern matches
    it followed by [%], wildcards or not: a wildcard matches itself. *)
Lemma starts_with_like t :
  (forall a b, like_eq a b = Ascii.eqb a b) ->
  forall s, starts_with t s = true -> like (t +:+ "%") s = true.
Proof.
  intros Hexact. induction t as [| c t IH]; intros s Hs.
  - apply like_percent_nil.
  - destruct s as [| d s]; [done |]. cbn [starts_with] in Hs.
    apply andb_prop in Hs as [Hcd Hs]. apply Ascii.eqb_eq in Hcd as <-.
    specialize (IH s Hs).
    change (String c t +:+ "%") with (String c (t +:+ "%")).
    destruct (Ascii.eqb c "%") eqn:Hp; [| destruct (Ascii.eqb c "_") eqn:Hu].
    + apply Ascii.eqb_eq in Hp as ->.
      rewrite like_percent_cons. apply orb_true_intro. right.
      rewrite like_percent_cons, IH. done.
    + cbn [like]. by rewrite Hp, Hu.
    + cbn [like]. by rewrite Hp, Hu, Hexact, Ascii.eqb_refl.
Qed.

(** So [contains] finds every text that holds the term. *)
Lemma occurs_in_contains column term :
  (forall a b, like_eq a b = Ascii.eqb a b) ->
  occurs_in term column = true -> contains column term = true.
Proof.
  intros Hexact. unfold contains.
  change ("%" +:+ term +:+ "%") with (String "%" (term +:+ "%")).
  induction column as [| d s IH]; cbn [occurs_in]; intros Hocc;
    rewrite like_percent_cons; apply orb_true_intro;
    apply orb_prop in Hocc as [Hhere | Hlater].
  - left. by apply starts_with_like.
  - done.
  - left. by apply starts_with_like.
  - right. by apply IH.
Qed.

End Like.

(** ** Listings *)

#[global] Instance asc_Z_total (key : OrderRow -> Z) : Total (asc Z.le key).
Proof. intros a b. unfold asc. lia. Qed.

#[global] Instance asc_Z_trans (key : OrderRow -> Z) : Transitive (asc Z.le key).
Proof. intros a b c. unfold asc. lia. Qed.

#[global] Instance desc_Z_total (key : OrderRow -> Z) : Total (desc Z.le key).
Proof. intros a b. unfold desc. lia. Qed.

#[global] Instance desc_Z_trans (key : OrderRow -> Z) : Transitive (desc Z.le key).
Proof. intros a b c. unfold desc. lia. Qed.

Lemma order_by_Permutation sort_by direction q : order_by sort_by direction q ≡ₚ q.
Proof.
  unfold order_by.
  repeat case_bool_decide; try apply merge_sort_Permutation; done.
Qed.

Lemma order_by_unknown sort_by direction q :
  sort_by <> "created_at" -> sort_by <> "production_order" ->
  sort_by <> "quantity" ->
  order_by sort_by direction q = q.
Proof.
  intros H1 H2 H3. unfold order_by.
  by rewrite !bool_decide_eq_false_2 by done.
Qed.

Lemma join_orders_all st (l : list ProductionOrder.t) :
  (forall o, o ∈ l ->
     is_Some (get_workcenter st (ProductionOrder.workcenter_id o))
     /\ is_Some (get_user st (ProductionOrder.user_id o))) ->
  map order (omap (join_order st) l) = l.
Proof.
  induction l as [| o l IH]; intros Hrefs; [done |].
  destruct (Hrefs o) as [[w Hw] [u Hu]]; [by left |].
  simpl. unfold join_order at 1. rewrite Hw, Hu. simpl. f_equal.
  apply IH. intros o' Ho'. apply Hrefs. by right.
Qed.

Lemma joined_orders_all st :
  references_valid st -> map order (joined_orders st) = orders st.
Proof. apply join_orders_all. Qed.

(** The rows of a joined order are the rows its keys name. *)
Lemma joined_orders_rows st r :
  r ∈ joined_orders st ->
  order r ∈ orders st
  /\ get_workcenter st (ProductionOrder.workcenter_id (order r)) = Some (workcenter r)
  /\ get_user st (ProductionOrder.user_id (order r)) = Some (user r).
Proof.
  unfold joined_orders. intros Hr. apply list_elem_of_omap in Hr as (o & Ho & Hj).
  unfold join_order in Hj.
  destruct (get_workcenter st (ProductionOrder.workcenter_id o)) as [w |] eqn:Hw;
    [| done].
  destruct (get_user st (ProductionOrder.user_id o)) as [u |] eqn:Hu; [| done].
  simpl in Hj. injection Hj as <-. simpl. by rewrite Hw, Hu.
Qed.

Section Reports.
Context `{Backend}.

Lemma report_query_Permutation st search sort_by direction :
  report_query st search sort_by direction ≡ₚ report_rows st search.
Proof. apply order_by_Permutation. Qed.

Lemma elem_of_report_query st search sort_by direction r :
  search <> EmptyString ->
  r ∈ report_query st search sort_by direction
  <-> r ∈ joined_orders st /\ contains (production_order r) search = true.
Proof.
  intros Hsearch. rewrite report_query_Permutation. unfold report_rows.
  destruct search; [done |]. simpl Py.truthy. cbv iota.
  rewrite list_elem_of_filter. rewrite Is_true_true. tauto.
Qed.

End Reports.




(** C10. In [reports] and [admin_reports] a [sort] parameter that is none
    of [created_at], [production_order] and [quantity] applies no ordering:
    the rows are rendered in the order the store returns them, whatever
    the [order] parameter. The default ordering by [created_at] comes from
    the default value of [sort], used when the parameter is absent. *)
Theorem unknown_sort_is_unordered `{Backend} st sess req :
  let search := get "search" EmptyString (args req) in
  let direction := get "order" "desc" (args req) in
  (forall sort_by,
     getitem "sort" (args req) = Some sort_by ->
     sort_by <> "created_at" -> sort_by <> "production_order" ->
     sort_by <> "quantity" ->
     (Session.logged_in sess = true ->
      response (reports st sess req)
      = Render (reports_html (report_rows st search) search sort_by direction))
     /\ (not_admin sess = false ->
         response (admin_reports st sess req)
         = Render (admin_reports_html (report_rows st search) search sort_by
                                      direction)))
  /\ (getitem "sort" (args req) = None ->
      (Session.logged_in sess = true ->
       response (reports st sess req)
       = Render (reports_html
                   (order_by "created_at" direction (report_rows st search))
                   search "created_at" direction))
      /\ (not_admin sess = false ->
          response (admin_reports st sess req)
          = Render (admin_reports_html
                      (order_by "created_at" direction (report_rows st search))
                      search "created_at" direction))).
Proof.
  intros search direction. split.
  - intros sort_by Hsort H1 H2 H3. unfold reports, admin_reports, report_query.
    rewrite !(get_Some "sort" _ _ sort_by Hsort).
    rewrite !order_by_unknown by done.
    split; by intros ->.
  - intros Hsort. unfold reports, admin_reports, report_query.
    rewrite !(get_None "sort" _ _ Hsort).
    split; by intros ->.
Qed.

Lemma unknown_sort_is_unordered_witness :
  let req := mkRequest [] [("sort", "id")] 0 in
  exists rows,
    response (@reports plain_backend busy_shop user_session req)
    = Render (reports_html rows EmptyString "id" "desc")
    /\ map created_at rows = [1000; 3000; 2000].
Proof.
  intros req.
  destruct (@unknown_sort_is_unordered plain_backend busy_shop user_session req)
    as [Hunknown _].
  destruct (Hunknown "id" eq_refl) as [Hreports _]; try discriminate.
  eexists. split; [exact (Hreports eq_refl) | reflexivity].
Defined.

Example default_sort_is_newest_first :
  exists rows,
    response (@reports plain_backend busy_shop user_session no_request)
    = Render (reports_html rows EmptyString "created_at" "desc")
    /\ map created_at rows = [3000; 2000; 1000].
Proof. eexists. split; reflexivity. Qed.

(** ** Spreadsheet export *)

Section Spreadsheet.
Context `{Backend}.

Lemma len_nonneg s : 0 <= Py.len s.
Proof. unfold Py.len. lia. Qed.

Lemma longest_nonneg column : 0 <= longest column.
Proof.
  unfold longest. induction column as [| c column IH]; cbn [foldr map]; lia.
Qed.

(** The loop that keeps the greatest length seen computes the length of
    the longest stringified value. *)
Lemma max_length_longest column : max_length column = longest column.
Proof.
  unfold max_length, longest.
  assert (forall m, 0 <= m ->
            fold_left (fun m cell =>
                         if m <? Py.len (str_value (value cell))
                         then Py.len (str_value (value cell)) else m)
                      column m
            = Z.max m (foldr Z.max 0
                         (map (fun cell => Py.len (str_value (value cell)))
                              column))) as Hgen.
  { induction column as [| c column IH]; intros m Hm; cbn [fold_left foldr map].
    - lia.
    - pose proof (len_nonneg (str_value (value c))) as Hc.
      destruct (Z.ltb_spec m (Py.len (str_value (value c)))); rewrite IH; lia. }
  rewrite Hgen by lia. pose proof (longest_nonneg column) as Hl.
  unfold longest in Hl. lia.
Qed.

Lemma longest_bounds column cell :
  cell ∈ column -> Py.len (str_value (value cell)) <= longest column.
Proof.
  unfold longest. induction column as [| c column IH]; intros Hin.
  - by apply elem_of_nil in Hin.
  - cbn [foldr map]. apply elem_of_cons in Hin as [-> | Hin]; [lia |].
    specialize (IH Hin). lia.
Qed.

Lemma max_column_data_rows (l : list OrderRow) :
  Nat.max 7 (max_column (map data_row l)) = 7%nat.
Proof.
  induction l as [| r l IH]; [done |].
  change (max_column (map data_row (r :: l)))
    with (Nat.max 7 (max_column (map data_row l))).
  rewrite IH. done.
Qed.

Lemma export_columns st :
  length (columns (rows (export_sheet st))) = 7%nat.
Proof.
  unfold columns. rewrite length_map, length_seq. simpl rows.
  change (max_column (map header_cell headers :: map data_row (export_query st)))
    with (Nat.max 7 (max_column (map data_row (export_query st)))).
  apply max_column_data_rows.
Qed.

Lemma export_widths st j column :
  columns (rows (export_sheet st)) !! j = Some column ->
  column_dimensions (export_sheet st) !! j
  = Some (column_letter j, Z.min (longest column + 2) 50).
Proof.
  intros Hcol. unfold export_sheet at 1. cbn [column_dimensions].
  rewrite list_lookup_imap. fold (export_sheet st) in *.
  change (map header_cell headers :: map data_row (export_query st))
    with (rows (export_sheet st)).
  rewrite Hcol. simpl. unfold adjusted_width. by rewrite max_length_longest.
Qed.

End Spreadsheet.



(** ** What a request can do to the store and the session *)

Section Frames.
Context `{Backend}.

Lemma save_batch_inv st sess now order_type orders_data st' :
  save_batch st sess now order_type orders_data = Ok st' ->
  exists pending,
    save_loop sess order_type [] orders_data = Ok pending
    /\ commit_error st (saved now pending st) = None
    /\ st' = saved now pending st.
Proof.
  unfold save_batch, commit.
  destruct (save_loop sess order_type [] orders_data) as [pending | e]; [| done].
  simpl. destruct (commit_error st (saved now pending st)) eqn:Hc; [done |].
  intros [= <-]. by exists pending.
Qed.

Lemma commit_inv old new st' : commit old new = Ok st' -> st' = new.
Proof. unfold commit. destruct (commit_error old new); [done |]. by intros [= <-]. Qed.

(** The store after a request, by the table its route writes: the store
    as it was, or the store with that one table replaced. *)
Lemma store_after r st sess req :
  let st' := store (handle r st sess req) in
  st' = st
  \/ match writes r with
     | Some Users =>
         (exists u, st' = set_users st (users st ++ [u]))
         \/ (exists u u', get_user st (User.id u') = Some u
                          /\ st' = set_users st (update_user u' (users st)))
     | Some WorkCenters =>
         (exists w, st' = set_workcenters st (workcenters st ++ [w]))
         \/ (exists w', st' = set_workcenters st
                                (update_workcenter w' (workcenters st)))
     | Some Departments =>
         (exists d, st' = set_departments st (departments st ++ [d]))
         \/ (exists d', st' = set_departments st
                                (update_department d' (departments st)))
     | Some Orders =>
         exists now pending, st' = saved now pending st
     | None => False
     end.
Proof.
  destruct r; simpl;
    unfold login, do_login, logout, menu, in_orders, out_orders, save_orders,
      reports, admin_dashboard, admin_users, create_user, edit_user, delete_user,
      admin_reports, export_excel, master_data, create_workcenter,
      edit_workcenter, delete_workcenter, create_department, edit_department,
      delete_department, to_login, access_denied, bad_request, not_found;
    repeat case_match; simpl; auto;
    try match goal with
        | Hc : commit _ _ = Ok _ |- _ => apply commit_inv in Hc; subst
        end;
    try match goal with
        | Hb : save_batch _ _ _ _ _ = Ok _ |- _ =>
            apply save_batch_inv in Hb as (pending & _ & _ & ->)
        end;
    right; eauto.
  (* what is left: the row rewritten by edit_user and delete_user *)
  all: right; eexists _, _; split; [| reflexivity]; simpl;
    match goal with
    | Hg : get_user _ _ = Some ?u |- _ =>
        rewrite (get_user_id _ _ _ Hg); exact Hg
    end.
Qed.

End Frames.

Section Invariants.
Context `{Backend}.

Lemma update_workcenter_ids w' ws :
  map WorkCenter.id (update_workcenter w' ws) = map WorkCenter.id ws.
Proof.
  unfold update_workcenter. rewrite map_map. apply map_ext. intros w.
  by case_bool_decide.
Qed.

Lemma update_department_ids d' ds :
  map Department.id (update_department d' ds) = map Department.id ds.
Proof.
  unfold update_department. rewrite map_map. apply map_ext. intros d.
  by case_bool_decide.
Qed.

Lemma find_app_Some {A} (f : A -> bool) l k x :
  find f l = Some x -> find f (l ++ k) = Some x.
Proof.
  induction l as [| y l IH]; [done |]. simpl. destruct (f y); [done | apply IH].
Qed.

Lemma get_user_of_row st u : u ∈ users st -> is_Some (get_user st (User.id u)).
Proof.
  intros Hu. unfold get_user.
  destruct (find _ (users st)) as [v |] eqn:Hf; [by exists v |].
  apply list_elem_of_In in Hu. pose proof (find_none _ _ Hf u Hu) as Hno.
  simpl in Hno. by rewrite bool_decide_eq_true_2 in Hno.
Qed.

(** A row that can be fetched can still be fetched after any request. *)
Lemma get_user_kept r st sess req pk :
  is_Some (get_user st pk) ->
  is_Some (get_user (store (handle r st sess req)) pk).
Proof.
  intros [v Hv]. destruct (store_after r st sess req) as [-> | Hw]; [by exists v |].
  destruct (writes r) as [[] |]; try done.
  - destruct Hw as [[u ->] | (u & u' & Hu & ->)]; unfold get_user in *; simpl.
    + exists v. by apply find_app_Some.
    + destruct (decide (pk = User.id u')) as [-> | Hne].
      * exists u'. by apply (find_update_user_same u' _ u).
      * exists v. by rewrite find_update_user_other.
  - destruct Hw as [[d ->] | [d' ->]]; by exists v.
  - destruct Hw as [[w ->] | [w' ->]]; by exists v.
  - destruct Hw as (now & pending & ->). by exists v.
Qed.

(** The session after a request: as it was, cleared by [logout], or that
    of a user row found by [do_login]. *)
Lemma session_after r st sess req :
  let sess' := session (handle r st sess req) in
  sess' = sess
  \/ (r = Route.logout /\ sess' = Session.clear)
  \/ (r = Route.do_login
      /\ exists u, u ∈ users st /\ User.is_active u = true
                   /\ sess' = Session.mk (Some (User.id u)) (Some (User.username u))
                                         (Some (User.is_admin u))).
Proof.
  destruct r; simpl;
    unfold login, do_login, logout, menu, in_orders, out_orders, save_orders,
      reports, admin_dashboard, admin_users, create_user, edit_user, delete_user,
      admin_reports, export_excel, master_data, create_workcenter,
      edit_workcenter, delete_workcenter, create_department, edit_department,
      delete_department, to_login, access_denied, bad_request, not_found;
    repeat case_match; simpl; auto.
  all: right; right; split; [done |];
    match goal with
    | Hf : find _ _ = Some ?u |- _ =>
        apply find_some in Hf as [Hin Hm]; apply andb_prop in Hm as [_ Hact];
        exists u; split; [by apply list_elem_of_In | split; [done | congruence]]
    end.
Qed.

End Invariants.

(** X1. Every handler leaves alone the tables it is not about: a request
    changes at most the one table its route writes ([save_orders] the
    orders, the user handlers the users, and so on), and a route that
    writes none (the pages, the listings, the export, login and logout)
    leaves the whole store as it was. *)
Theorem handlers_keep_other_tables `{Backend} r st sess req :
  let st' := store (handle r st sess req) in
  (writes r <> Some Users -> users st' = users st)
  /\ (writes r <> Some Departments -> departments st' = departments st)
  /\ (writes r <> Some WorkCenters -> workcenters st' = workcenters st)
  /\ (writes r <> Some Orders -> orders st' = orders st)
  /\ (writes r = None -> st' = st).
Proof.
  intros st'. subst st'.
  destruct (store_after r st sess req) as [-> | Hw]; [done |].
  destruct (writes r) as [[] |]; [| | | | done].
  - destruct Hw as [[u ->] | (u & u' & _ & ->)]; by repeat split.
  - destruct Hw as [[d ->] | [d' ->]]; by repeat split.
  - destruct Hw as [[w ->] | [w' ->]]; by repeat split.
  - destruct Hw as (now & pending & ->). by repeat split.
Qed.

Lemma handlers_keep_other_tables_witness :
  let req := mkRequest [("order_type", "IN"); ("orders", "1|PO7|3")] [] 5 in
  let st' := store (@handle plain_backend Route.save_orders busy_shop user_session
                      req) in
  users st' = users busy_shop /\ workcenters st' = workcenters busy_shop
  /\ length (orders st') = 4%nat.
Proof.
  intros req st'.
  destruct (@handlers_keep_other_tables plain_backend Route.save_orders busy_shop
              user_session req) as (Hu & _ & Hw & _).
  split; [apply Hu; discriminate |]. split; [apply Hw; discriminate | reflexivity].
Defined.

(** X2. No handler removes or rewrites a production order, and none
    removes a user, work center or department row: after any request the
    orders table starts with the orders it had, and each other table has
    the primary keys it had, in place, with new rows only after them. *)
Theorem rows_are_never_removed `{Backend} r st sess req :
  let st' := store (handle r st sess req) in
  orders st `prefix_of` orders st'
  /\ map User.id (users st) `prefix_of` map User.id (users st')
  /\ map WorkCenter.id (workcenters st) `prefix_of` map WorkCenter.id (workcenters st')
  /\ map Department.id (departments st) `prefix_of`
       map Department.id (departments st').
Proof.
  intros st'. subst st'.
  destruct (store_after r st sess req) as [-> | Hw]; [done |].
  destruct (writes r) as [[] |]; [| | | | done].
  - destruct Hw as [[u ->] | (u & u' & _ & ->)]; simpl.
    + repeat split; try done. rewrite map_app. by apply prefix_app_r.
    + repeat split; try done. by rewrite update_user_ids.
  - destruct Hw as [[d ->] | [d' ->]]; simpl.
    + repeat split; try done. rewrite map_app. by apply prefix_app_r.
    + repeat split; try done. by rewrite update_department_ids.
  - destruct Hw as [[w ->] | [w' ->]]; simpl.
    + repeat split; try done. rewrite map_app. by apply prefix_app_r.
    + repeat split; try done. by rewrite update_workcenter_ids.
  - destruct Hw as (now & pending & ->). simpl.
    destruct (insert_orders_appends now pending (orders st)) as (added & -> & _).
    repeat split; try done. by apply prefix_app_r.
Qed.

(** X3. Only [do_login] and [logout] touch the session: every other
    handler returns it as it received it, whatever it does to the store. *)
Theorem session_changes_only_at_login_and_logout `{Backend} r st sess req :
  r <> Route.do_login -> r <> Route.logout ->
  session (handle r st sess req) = sess.
Proof.
  intros Hlogin Hlogout.
  destruct (session_after r st sess req) as [Hs | [[-> _] | [-> _]]]; done.
Qed.

Lemma session_changes_only_at_login_and_logout_witness :
  session (@handle plain_backend (Route.delete_user 2) empty_shop admin_session
             no_request) = admin_session.
Proof.
  apply (@session_changes_only_at_login_and_logout plain_backend); discriminate.
Defined.

(** X4. A session always names a user that has a row: if that holds
    before a request it holds after it, for every handler. [do_login]
    writes the key of a row it found, and no handler removes a row. *)
Theorem session_stays_valid `{Backend} r st sess req :
  session_valid st sess ->
  session_valid (store (handle r st sess req)) (session (handle r st sess req)).
Proof.
  intros Hvalid uid Huid.
  destruct (session_after r st sess req) as [Hs | [[_ Hs] | [_ (u & Hu & _ & Hs)]]];
    rewrite Hs in Huid.
  - apply get_user_kept. by apply Hvalid.
  - done.
  - injection Huid as <-. apply get_user_kept. by apply get_user_of_row.
Qed.

Lemma session_stays_valid_witness :
  let req := mkRequest [("username", "bob"); ("password", "hunter2")] [] 0 in
  session_valid (store (@do_login plain_backend empty_shop Session.clear req))
                (session (@do_login plain_backend empty_shop Session.clear req)).
Proof.
  intros req.
  apply (@session_stays_valid plain_backend Route.do_login empty_shop Session.clear).
  intros uid Huid. discriminate Huid.
Defined.

(** X5. A session that passes a handler's test is never sent to the login
    page by it: apart from [do_login] and [logout], whose own answers go
    there, a handler answers the redirect to the login page only when the
    test at its top fails. *)
Theorem admitted_request_is_not_sent_to_login `{Backend} r st sess req :
  r <> Route.do_login -> r <> Route.logout ->
  refused r sess = false ->
  response (handle r st sess req) <> Redirect "login".
Proof.
  intros Hlogin Hlogout Href.
  apply orb_false_elim in Href as [Hin Hadm].
  assert (admin_only r = true -> not_admin sess = false) as Hadmin.
  { intros Hr. rewrite Hr in Hadm. unfold not_admin. by rewrite Hin. }
  destruct r; try done; simpl;
    unfold login, menu, in_orders, out_orders, save_orders,
      reports, admin_dashboard, admin_users, create_user, edit_user, delete_user,
      admin_reports, export_excel, master_data, create_workcenter,
      edit_workcenter, delete_workcenter, create_department, edit_department,
      delete_department, bad_request, not_found;
    rewrite ?Hin, ?(Hadmin eq_refl); repeat case_match; done.
Qed.

Lemma admitted_request_is_not_sent_to_login_witness :
  response (@handle plain_backend Route.in_orders empty_shop user_session no_request)
  <> Redirect "login".
Proof.
  apply (@admitted_request_is_not_sent_to_login plain_backend);
    [discriminate | discriminate | reflexivity].
Defined.

(** ** Accounts *)

Section Accounts.
Context `{Backend}.

Lemma find_None_iff {A} (f : A -> bool) l :
  find f l = None <-> forall x, x ∈ l -> f x = false.
Proof.
  split.
  - intros Hf x Hx. apply (find_none _ _ Hf). by apply list_elem_of_In.
  - induction l as [| y l IH]; intros Hall; [done |]. simpl.
    rewrite (Hall y) by left. apply IH. intros x Hx. apply Hall. by right.
Qed.

Lemma find_app_None {A} (f : A -> bool) l k :
  find f l = None -> find f (l ++ k) = find f k.
Proof.
  induction l as [| y l IH]; [done |]. simpl. destruct (f y); [done | apply IH].
Qed.

(** The answer of [do_login] when the row it looks up is [u]. *)
Lemma do_login_found st sess req username password u :
  getitem "username" (form req) = Some username ->
  getitem "password" (form req) = Some password ->
  find (fun v => bool_decide (User.username v = username) && User.is_active v)
       (users st) = Some u ->
  check_password u password = true ->
  do_login st sess req
  = mkResult st
      (Session.mk (Some (User.id u)) (Some (User.username u))
                  (Some (User.is_admin u)))
      []
      (if User.is_admin u then Redirect "admin_dashboard" else Redirect "menu").
Proof. unfold do_login. by intros -> -> -> ->. Qed.

(** The answer of [do_login] when no active row has the name. *)
Lemma do_login_not_found st sess req username password :
  getitem "username" (form req) = Some username ->
  getitem "password" (form req) = Some password ->
  find (fun v => bool_decide (User.username v = username) && User.is_active v)
       (users st) = None ->
  do_login st sess req
  = mkResult st sess [("Invalid username or password", "error")]
             (Redirect "login").
Proof. unfold do_login. by intros -> -> ->. Qed.

Lemma elem_of_update_user u' us w :
  w ∈ update_user u' us ->
  w = u' \/ (w ∈ us /\ User.id w <> User.id u').
Proof.
  unfold update_user. intros Hw. apply list_elem_of_fmap in Hw as (v & -> & Hv).
  case_bool_decide; [by left | by right].
Qed.

Lemma create_user_fresh_name us username :
  find (fun u => bool_decide (User.username u = username)) us = None ->
  username ∉ map User.username us.
Proof.
  intros Hf Hin. apply list_elem_of_fmap in Hin as (u & Hname & Hu).
  pose proof (proj1 (find_None_iff _ _) Hf u Hu) as Hno. simpl in Hno.
  by rewrite bool_decide_eq_true_2 in Hno.
Qed.

End Accounts.

(** X6. [create_user] refuses a user name that any row already has,
    active or not: the store is left as it was and the message
    "Username already exists" is flashed with the redirect to the user
    list. *)
Theorem create_user_refuses_taken_name `{Backend} st sess req username password u :
  not_admin sess = false ->
  getitem "username" (form req) = Some username ->
  getitem "password" (form req) = Some password ->
  u ∈ users st -> User.username u = username ->
  create_user st sess req
  = mkResult st sess [("Username already exists", "error")]
             (Redirect "admin_users").
Proof.
  intros Hadmin Hname Hpass Hu Heq. unfold create_user.
  rewrite Hadmin, Hname, Hpass.
  destruct (find _ (users st)) as [v |] eqn:Hf; [done |].
  pose proof (proj1 (find_None_iff _ _) Hf u Hu) as Hno. simpl in Hno.
  by rewrite bool_decide_eq_true_2 in Hno.
Qed.

Lemma create_user_refuses_taken_name_witness :
  let req := mkRequest [("username", "carol"); ("password", "x")] [] 0 in
  @create_user plain_backend empty_shop admin_session req
  = mkResult empty_shop admin_session [("Username already exists", "error")]
             (Redirect "admin_users").
Proof.
  intros req.
  apply (@create_user_refuses_taken_name plain_backend empty_shop admin_session req
           "carol" "x" carol); try reflexivity.
  apply list_elem_of_In. simpl. auto.
Defined.

(** X7. [create_user] keeps the user names of the table distinct: if no
    two rows share a name before the request, none do after it, whoever
    sends it and whatever the form holds. *)
Theorem create_user_keeps_names_distinct `{Backend} st sess req :
  NoDup (map User.username (users st)) ->
  NoDup (map User.username (users (store (create_user st sess req)))).
Proof.
  intros Hnd. unfold create_user, to_login, bad_request, commit.
  repeat case_match; simpl; try done.
  simplify_eq. simpl. rewrite map_app. simpl.
  apply NoDup_app. split; [done |]. split; [| apply NoDup_singleton].
  intros name Hin Hnew. apply list_elem_of_singleton in Hnew as ->.
  by eapply create_user_fresh_name.
Qed.

Lemma create_user_keeps_names_distinct_witness :
  let req := mkRequest [("username", "dave"); ("password", "x")] [] 0 in
  map User.username (users (store (@create_user plain_backend empty_shop
                                     admin_session req)))
  = ["alice"; "bob"; "carol"; "dave"]
  /\ NoDup (map User.username
              (users (store (@create_user plain_backend empty_shop admin_session
                               req)))).
Proof.
  intros req. split; [reflexivity |].
  apply (@create_user_keeps_names_distinct plain_backend).
  apply (bool_decide_unpack _). exact I.
Defined.

(** X8. A user that [create_user] has just created can log in: after a
    creation that was committed, under a name no row had, and with a hash
    library that verifies what it hashed, [do_login] with the same name
    and password establishes the session of the new row, whose admin flag
    is whether the creation form carried [is_admin], and redirects by that
    flag. *)
Theorem created_user_can_log_in `{Backend} st sess req username password :
  not_admin sess = false ->
  getitem "username" (form req) = Some username ->
  getitem "password" (form req) = Some password ->
  (forall u, u ∈ users st -> User.username u <> username) ->
  let new_user :=
    User.mk (next_id (map User.id (users st))) username
            (generate_password_hash password)
            (get "name" EmptyString (form req))
            (get "department" EmptyString (form req))
            (contains_key "is_admin" (form req)) true in
  commit_error st (set_users st (users st ++ [new_user])) = None ->
  check_password_hash (generate_password_hash password) password = true ->
  let st' := store (create_user st sess req) in
  forall sess0 req',
    getitem "username" (form req') = Some username ->
    getitem "password" (form req') = Some password ->
    do_login st' sess0 req'
    = mkResult st'
        (Session.mk (Some (User.id new_user)) (Some username)
                    (Some (contains_key "is_admin" (form req))))
        []
        (if contains_key "is_admin" (form req) then Redirect "admin_dashboard"
         else Redirect "menu").
Proof.
  intros Hadmin Hname Hpass Hfresh new_user Hcommit Hhash st' sess0 req' Hn' Hp'.
  assert (st' = set_users st (users st ++ [new_user])) as ->.
  { subst st'. unfold create_user. rewrite Hadmin, Hname, Hpass.
    assert (find (fun u => bool_decide (User.username u = username)) (users st)
            = None) as ->.
    { apply find_None_iff. intros u Hu. apply bool_decide_eq_false_2. eauto. }
    unfold commit. fold new_user. by rewrite Hcommit. }
  apply (do_login_found _ _ _ username password new_user); try done.
  simpl. rewrite find_app_None.
  - simpl. by rewrite bool_decide_eq_true_2.
  - apply find_None_iff. intros u Hu.
    rewrite bool_decide_eq_false_2; [done | eauto].
Qed.

Lemma created_user_can_log_in_witness :
  let req := mkRequest [("username", "dave"); ("password", "pw1");
                        ("is_admin", "on")] [] 0 in
  let st' := store (@create_user plain_backend empty_shop admin_session req) in
  let res := @do_login plain_backend st' Session.clear
               (mkRequest [("username", "dave"); ("password", "pw1")] [] 1) in
  session res = Session.mk (Some 4) (Some "dave") (Some true)
  /\ response res = Redirect "admin_dashboard".
Proof.
  intros req st' res. subst res st'.
  rewrite (@created_user_can_log_in plain_backend empty_shop admin_session req
             "dave" "pw1" eq_refl eq_refl eq_refl).
  - split; reflexivity.
  - intros u Hu. apply list_elem_of_In in Hu. simpl in Hu.
    destruct Hu as [<- | [<- | [<- | []]]]; discriminate.
  - reflexivity.
  - reflexivity.
  - reflexivity.
  - reflexivity.
Defined.

(** X9. A user that [delete_user] has deactivated cannot log in any more:
    on a store with distinct user names, after the deletion was committed,
    [do_login] with that user's name is answered by the error flash and
    the redirect to the login page, whatever the password, and leaves the
    session it was sent with. *)
Theorem deactivated_user_cannot_log_in `{Backend} st sess req target u :
  NoDup (map User.username (users st)) ->
  not_admin sess = false ->
  get_user st target = Some u ->
  Session.user_id sess <> Some target ->
  commit_error st (set_users st (update_user (deactivate_user u) (users st)))
    = None ->
  let st' := store (delete_user target st sess req) in
  forall sess0 req' password,
    getitem "username" (form req') = Some (User.username u) ->
    getitem "password" (form req') = Some password ->
    do_login st' sess0 req'
    = mkResult st' sess0 [("Invalid username or password", "error")]
               (Redirect "login").
Proof.
  intros Hnd Hadmin Hget Hother Hcommit st' sess0 req' password Hn' Hp'.
  pose proof (get_user_id _ _ _ Hget) as Hid.
  pose proof (get_user_elem_of _ _ _ Hget) as Hu.
  assert (st' = set_users st (update_user (deactivate_user u) (users st))) as ->.
  { subst st'. unfold delete_user. rewrite Hadmin, Hget.
    rewrite bool_decide_eq_false_2 by congruence.
    unfold commit. by rewrite Hcommit. }
  apply (do_login_not_found _ _ _ (User.username u) password); try done.
  apply find_None_iff. intros w Hw. simpl in Hw.
  apply elem_of_update_user in Hw as [-> | [Hw Hne]].
  - simpl. apply andb_false_r.
  - rewrite bool_decide_eq_false_2; [done |].
    intros Hname. apply Hne. simpl.
    by rewrite (unique_username (users st) w u Hnd Hw Hu Hname).
Qed.

Lemma deactivated_user_cannot_log_in_witness :
  let st' := store (@delete_user plain_backend 2 empty_shop admin_session
                      no_request) in
  let res := @do_login plain_backend st' Session.clear
               (mkRequest [("username", "bob"); ("password", "hunter2")] [] 1) in
  session res = Session.clear /\ response res = Redirect "login".
Proof.
  intros st' res. subst res st'.
  assert (NoDup (map User.username (users empty_shop))) as Hnd.
  { apply (bool_decide_unpack _). exact I. }
  rewrite (@deactivated_user_cannot_log_in plain_backend empty_shop admin_session
             no_request 2 bob Hnd eq_refl eq_refl ltac:(discriminate) eq_refl
             Session.clear
             (mkRequest [("username", "bob"); ("password", "hunter2")] [] 1)
             "hunter2" eq_refl eq_refl).
  split; reflexivity.
Defined.

Lemma edited_user_in_table st target u edited :
  get_user st target = Some u -> User.id edited = target ->
  edited ∈ update_user edited (users st).
Proof.
  intros Hget Hid. unfold get_user in Hget. rewrite <- Hid in Hget.
  apply (find_update_user_same edited) in Hget.
  apply find_some in Hget as [Hin _]. by apply list_elem_of_In.
Qed.

(** X10. A password set through [edit_user] is the one that logs in: when
    the form carries a non-empty password and [is_active], the edit is
    committed, the user names of the resulting table are distinct and the
    hash library verifies what it hashed, then [do_login] with the edited
    name and the new password establishes the session of the edited row. *)
Theorem changed_password_logs_in `{Backend} st sess req target u username password :
  not_admin sess = false ->
  get_user st target = Some u ->
  getitem "username" (form req) = Some username ->
  getitem "password" (form req) = Some password ->
  password <> EmptyString ->
  contains_key "is_active" (form req) = true ->
  let edited :=
    User.mk target username (generate_password_hash password)
            (get "name" EmptyString (form req))
            (get "department" EmptyString (form req))
            (contains_key "is_admin" (form req)) true in
  let st' := set_users st (update_user edited (users st)) in
  commit_error st st' = None ->
  NoDup (map User.username (users st')) ->
  check_password_hash (generate_password_hash password) password = true ->
  store (edit_user target st sess req) = st'
  /\ forall sess0 req',
       getitem "username" (form req') = Some username ->
       getitem "password" (form req') = Some password ->
       do_login st' sess0 req'
       = mkResult st'
           (Session.mk (Some target) (Some username)
                       (Some (contains_key "is_admin" (form req))))
           []
           (if contains_key "is_admin" (form req) then Redirect "admin_dashboard"
            else Redirect "menu").
Proof.
  intros Hadmin Hget Hname Hpass Hne Hactive edited st' Hcommit Hnd Hhash.
  pose proof (get_user_id _ _ _ Hget) as Hid.
  split.
  - unfold edit_user. rewrite Hadmin, Hget, Hname, Hpass, Hactive, Hid.
    destruct password; [done |]. simpl Py.truthy. cbv iota.
    unfold commit. fold edited. fold st'. by rewrite Hcommit.
  - intros sess0 req' Hn' Hp'.
    pose proof (edited_user_in_table st target u edited Hget eq_refl) as Hin.
    destruct (find (fun v => bool_decide (User.username v = username)
                             && User.is_active v) (users st')) as [v |] eqn:Hf.
    + pose proof Hf as Hv. apply find_some in Hv as [Hv Hm].
      apply list_elem_of_In in Hv. apply andb_prop in Hm as [Hvn _].
      apply bool_decide_eq_true_1 in Hvn.
      assert (v = edited) as -> by (by apply (unique_username (users st'))).
      by apply (do_login_found _ _ _ username password edited).
    + pose proof (proj1 (find_None_iff _ _) Hf edited Hin) as Hno. simpl in Hno.
      by rewrite bool_decide_eq_true_2 in Hno.
Qed.

Lemma changed_password_logs_in_witness :
  let req := mkRequest [("username", "bob"); ("password", "new"); ("is_active", "on")]
                       [] 0 in
  let st' := store (@edit_user plain_backend 2 empty_shop admin_session req) in
  session (@do_login plain_backend st' Session.clear
             (mkRequest [("username", "bob"); ("password", "new")] [] 1))
  = Session.mk (Some 2) (Some "bob") (Some false).
Proof.
  intros req st'.
  destruct (@changed_password_logs_in plain_backend empty_shop admin_session req 2
              bob "bob" "new" eq_refl eq_refl eq_refl eq_refl
              ltac:(discriminate) eq_refl eq_refl)
    as [Hst Hlogin].
  - apply (bool_decide_unpack _). exact I.
  - reflexivity.
  - subst st'. rewrite Hst.
    by rewrite (Hlogin Session.clear
                  (mkRequest [("username", "bob"); ("password", "new")] [] 1)
                  eq_refl eq_refl).
Defined.

(** X11. [edit_user] sets the active flag from the form for any account,
    the editing admin's own included: when the form does not carry
    [is_active], the edit is committed and the user names of the resulting
    table are distinct, [do_login] with the edited name fails whatever the
    password. *)
Theorem edit_without_active_flag_locks_out `{Backend} st sess req target u username
    password :
  not_admin sess = false ->
  get_user st target = Some u ->
  getitem "username" (form req) = Some username ->
  getitem "password" (form req) = Some password ->
  contains_key "is_active" (form req) = false ->
  let st' := store (edit_user target st sess req) in
  flashes (edit_user target st sess req) = [("User updated successfully", "success")] ->
  NoDup (map User.username (users st')) ->
  (User.is_active <$> get_user st' target) = Some false
  /\ forall sess0 req' password',
       getitem "username" (form req') = Some username ->
       getitem "password" (form req') = Some password' ->
       do_login st' sess0 req'
       = mkResult st' sess0 [("Invalid username or password", "error")]
                  (Redirect "login").
Proof.
  intros Hadmin Hget Hname Hpass Hactive st'. subst st'.
  pose proof (get_user_id _ _ _ Hget) as Hid.
  unfold edit_user. rewrite Hadmin, Hget, Hname, Hpass, Hactive, Hid.
  set (edited := User.mk target username _ _ _ _ false).
  unfold commit.
  destruct (commit_error st (set_users st (update_user edited (users st))));
    simpl; [intros [=] |].
  intros _ Hnd.
  pose proof (edited_user_in_table st target u edited Hget eq_refl) as Hin.
  split.
  - unfold get_user in *. simpl. change target with (User.id edited) at 1.
    by rewrite (find_update_user_same edited _ u).
  - intros sess0 req' password' Hn' Hp'.
    apply (do_login_not_found _ _ _ username password'); try done.
    apply find_None_iff. intros w Hw. simpl in Hw.
    destruct (bool_decide (User.username w = username)) eqn:Hwn; [| done].
    apply bool_decide_eq_true_1 in Hwn.
    by rewrite (unique_username _ w edited Hnd Hw Hin Hwn).
Qed.

Lemma edit_without_active_flag_locks_out_witness :
  let req := mkRequest [("username", "alice"); ("password", EmptyString);
                        ("is_admin", "on")] [] 0 in
  let st' := store (@edit_user plain_backend 1 empty_shop admin_session req) in
  response (@do_login plain_backend st' Session.clear
              (mkRequest [("username", "alice"); ("password", "secret")] [] 1))
  = Redirect "login".
Proof.
  intros req st'.
  destruct (@edit_without_active_flag_locks_out plain_backend empty_shop
              admin_session req 1 alice "alice" EmptyString
              eq_refl eq_refl eq_refl eq_refl eq_refl eq_refl)
    as [_ Hlogin].
  - apply (bool_decide_unpack _). exact I.
  - subst st'.
    by rewrite (Hlogin Session.clear
                  (mkRequest [("username", "alice"); ("password", "secret")] [] 1)
                  "secret" eq_refl eq_refl).
Defined.

(** ** Master data *)

Section MasterData.
Context `{Backend}.

Lemma find_workcenter_ids pk ws :
  is_Some (find (fun w => bool_decide (WorkCenter.id w = pk)) ws)
  <-> pk ∈ map WorkCenter.id ws.
Proof.
  induction ws as [| w ws IH]; simpl.
  - split; [by intros [? ?] | by intros ?%elem_of_nil].
  - case_bool_decide as Hw.
    + split; [intros _; rewrite Hw; by left | by eauto].
    + rewrite IH. split; [by right |].
      intros [Heq | Hin]%elem_of_cons; [congruence | done].
Qed.

Lemma find_update_workcenter_same w' ws w :
  find (fun v => bool_decide (WorkCenter.id v = WorkCenter.id w')) ws = Some w ->
  find (fun v => bool_decide (WorkCenter.id v = WorkCenter.id w'))
       (update_workcenter w' ws) = Some w'.
Proof.
  induction ws as [| v ws IH]; [done |]. simpl.
  destruct (bool_decide (WorkCenter.id v = WorkCenter.id w')) eqn:Hv.
  - intros _. simpl. by rewrite bool_decide_eq_true_2.
  - intros Hf. rewrite Hv. by apply IH.
Qed.

Lemma find_update_department_same d' ds d :
  find (fun v => bool_decide (Department.id v = Department.id d')) ds = Some d ->
  find (fun v => bool_decide (Department.id v = Department.id d'))
       (update_department d' ds) = Some d'.
Proof.
  induction ds as [| v ds IH]; [done |]. simpl.
  destruct (bool_decide (Department.id v = Department.id d')) eqn:Hv.
  - intros _. simpl. by rewrite bool_decide_eq_true_2.
  - intros Hf. rewrite Hv. by apply IH.
Qed.

Lemma get_workcenter_id st pk w :
  get_workcenter st pk = Some w -> WorkCenter.id w = pk.
Proof.
  unfold get_workcenter. intros Hf. apply find_some in Hf as [_ Hid].
  by apply bool_decide_eq_true_1 in Hid.
Qed.

Lemma get_department_id st pk d :
  get_department st pk = Some d -> Department.id d = pk.
Proof.
  unfold get_department. intros Hf. apply find_some in Hf as [_ Hid].
  by apply bool_decide_eq_true_1 in Hid.
Qed.

(** Rewriting work-center rows changes no order of the join, only the
    work-center row an order comes with. *)
Lemma join_order_update_workcenter st w' o :
  order <$> join_order (set_workcenters st (update_workcenter w' (workcenters st))) o
  = order <$> join_order st o.
Proof.
  unfold join_order, get_workcenter, get_user. simpl.
  pose proof (find_workcenter_ids (ProductionOrder.workcenter_id o)
                (update_workcenter w' (workcenters st))) as Hnew.
  pose proof (find_workcenter_ids (ProductionOrder.workcenter_id o)
                (workcenters st)) as Hold.
  rewrite update_workcenter_ids in Hnew. rewrite <- Hold in Hnew. clear Hold.
  destruct (find _ (update_workcenter w' (workcenters st))) as [w1 |];
    destruct (find _ (workcenters st)) as [w2 |]; simpl.
  - by destruct (find _ (users st)).
  - exfalso. by apply (is_Some_None (A := WorkCenter.t)), Hnew.
  - exfalso. by apply (is_Some_None (A := WorkCenter.t)), Hnew.
  - done.
Qed.

Lemma map_order_omap (f g : ProductionOrder.t -> option OrderRow) l :
  (forall o, order <$> f o = order <$> g o) ->
  map order (omap f l) = map order (omap g l).
Proof.
  intros Hfg. induction l as [| o l IH]; [done |]. simpl.
  specialize (Hfg o). destruct (f o) as [a |], (g o) as [b |]; simpl in *;
    [| done | done | exact IH].
  injection Hfg as Hab. rewrite Hab. f_equal. exact IH.
Qed.

Lemma joined_orders_update_workcenter st w' :
  map order (joined_orders (set_workcenters st (update_workcenter w' (workcenters st))))
  = map order (joined_orders st).
Proof.
  unfold joined_orders. simpl orders.
  apply map_order_omap. intros o. apply join_order_update_workcenter.
Qed.

Lemma active_after_update_workcenter w' ws w :
  WorkCenter.is_active w' = false ->
  w ∈ filter (fun v => WorkCenter.is_active v) (update_workcenter w' ws) ->
  WorkCenter.id w <> WorkCenter.id w'.
Proof.
  intros Hoff Hw. apply list_elem_of_filter in Hw as [Hact Hw].
  unfold update_workcenter in Hw. apply list_elem_of_fmap in Hw as (v & -> & Hv).
  case_bool_decide; [| done]. rewrite Hoff in Hact. done.
Qed.

End MasterData.

(** X12. Deleting a work center is a soft delete that keeps its orders
    queryable: when the deletion is committed, the row is still there with
    [is_active] false and its name, the orders table is untouched, the
    join that the listings and the export read yields the same orders as
    before, and the order-entry forms no longer offer the work center. *)
Theorem deleted_workcenter_keeps_its_orders `{Backend} st sess req wc_id w :
  not_admin sess = false ->
  get_workcenter st wc_id = Some w ->
  let w' := WorkCenter.mk (WorkCenter.id w) (WorkCenter.name w) false in
  commit_error st (set_workcenters st (update_workcenter w' (workcenters st)))
    = None ->
  let st' := store (delete_workcenter wc_id st sess req) in
  get_workcenter st' wc_id = Some w'
  /\ orders st' = orders st
  /\ map order (joined_orders st') = map order (joined_orders st)
  /\ (forall v, v ∈ active_workcenters st' -> WorkCenter.id v <> wc_id)
  /\ map WorkCenter.id (workcenters st') = map WorkCenter.id (workcenters st).
Proof.
  intros Hadmin Hget w' Hcommit st'.
  pose proof (get_workcenter_id _ _ _ Hget) as Hid.
  assert (st' = set_workcenters st (update_workcenter w' (workcenters st))) as ->.
  { subst st'. unfold delete_workcenter. rewrite Hadmin, Hget.
    unfold commit. fold w'. by rewrite Hcommit. }
  split; [| split; [done | split; [| split]]].
  - unfold get_workcenter in *. simpl. rewrite <- Hid in *.
    by apply (find_update_workcenter_same w' _ w).
  - apply joined_orders_update_workcenter.
  - intros v Hv. unfold active_workcenters in Hv. simpl in Hv.
    apply (active_after_update_workcenter w') in Hv; [| done].
    simpl in Hv. congruence.
  - apply update_workcenter_ids.
Qed.

Lemma deleted_workcenter_keeps_its_orders_witness :
  let st' := store (@delete_workcenter plain_backend 1 busy_shop admin_session
                      no_request) in
  map ProductionOrder.id (map order (joined_orders st')) = [1; 2; 3]
  /\ active_workcenters st' = [mill].
Proof.
  intros st'.
  destruct (@deleted_workcenter_keeps_its_orders plain_backend busy_shop
              admin_session no_request 1 lathe eq_refl eq_refl eq_refl)
    as (_ & _ & Hjoin & _).
  subst st'. rewrite Hjoin. split; reflexivity.
Defined.

(** X13. A work center that [create_workcenter] has committed is offered
    by the order-entry forms: [in_orders] and [out_orders] then list the
    active work centers they listed before, followed by the new one under
    the submitted name. *)
Theorem created_workcenter_is_offered `{Backend} st sess req name :
  not_admin sess = false ->
  getitem "name" (form req) = Some name ->
  let new_workcenter :=
    WorkCenter.mk (next_id (map WorkCenter.id (workcenters st))) name true in
  commit_error st (set_workcenters st (workcenters st ++ [new_workcenter])) = None ->
  let st' := store (create_workcenter st sess req) in
  forall sess' req',
    Session.logged_in sess' = true ->
    in_orders st' sess' req'
    = mkResult st' sess' []
        (Render (in_orders_html (active_workcenters st ++ [new_workcenter])))
    /\ out_orders st' sess' req'
       = mkResult st' sess' []
           (Render (out_orders_html (active_workcenters st ++ [new_workcenter]))).
Proof.
  intros Hadmin Hname new_workcenter Hcommit st' sess' req' Hin.
  assert (st' = set_workcenters st (workcenters st ++ [new_workcenter])) as ->.
  { subst st'. unfold create_workcenter. rewrite Hadmin, Hname.
    unfold commit. fold new_workcenter. by rewrite Hcommit. }
  unfold in_orders, out_orders. rewrite Hin. simpl.
  unfold active_workcenters. simpl. rewrite filter_app. done.
Qed.

Lemma created_workcenter_is_offered_witness :
  let req := mkRequest [("name", "Press")] [] 0 in
  let st' := store (@create_workcenter plain_backend empty_shop admin_session req) in
  response (in_orders st' user_session no_request)
  = Render (in_orders_html [lathe; mill; WorkCenter.mk 3 "Press" true]).
Proof.
  intros req st'.
  destruct (@created_workcenter_is_offered plain_backend empty_shop admin_session
              req "Press" eq_refl eq_refl eq_refl user_session no_request eq_refl)
    as [Hin _].
  subst st'. by rewrite Hin.
Defined.

(** X14. The edit and delete handlers answer a key that has no row with
    the not-found response: for an admin, when the user, work center or
    department the URL names is missing, the answer is 404, nothing is
    flashed and the store and the session are as they were; the form is
    not even read. *)
Theorem missing_row_is_not_found `{Backend} r st sess req :
  not_admin sess = false ->
  row_missing r st ->
  handle r st sess req = mkResult st sess [] (Abort 404).
Proof.
  intros Hadmin Hmiss.
  destruct r; try done; simpl in *;
    unfold edit_user, delete_user, edit_workcenter, delete_workcenter,
      edit_department, delete_department, not_found;
    by rewrite Hadmin, Hmiss.
Qed.

Lemma missing_row_is_not_found_witness :
  @handle plain_backend (Route.delete_department 7) empty_shop admin_session
    no_request
  = mkResult empty_shop admin_session [] (Abort 404).
Proof.
  apply (@missing_row_is_not_found plain_backend (Route.delete_department 7));
    reflexivity.
Defined.

(** X15. A form that lacks a key the handler reads with
    [request.form[...]] is answered with a bad request before anything is
    written: for [do_login], or for a session that passes the handler's
    test and a URL key that has its row, the answer is 400, nothing is
    flashed and the store and the session are as they were. For
    [save_orders] this holds although the key is read outside the [try]
    block, so the batch is neither saved nor reported. *)
Theorem missing_form_key_is_bad_request `{Backend} r st sess req key :
  r = Route.do_login \/ refused r sess = false ->
  ~ row_missing r st ->
  key ∈ required_keys r ->
  getitem key (form req) = None ->
  handle r st sess req = mkResult st sess [] (Abort 400).
Proof.
  intros Hguard Hrow Hkey Hnone.
  assert (r <> Route.do_login -> negb (Session.logged_in sess) = false
                                 /\ (admin_only r = true -> not_admin sess = false))
    as Hpass.
  { intros Hr. destruct Hguard as [-> | Href]; [done |].
    apply orb_false_elim in Href as [Hin Hadm]. split; [done |].
    intros Ha. rewrite Ha in Hadm. unfold not_admin. by rewrite Hin. }
  destruct r; simpl in Hkey; try (by apply elem_of_nil in Hkey);
    try (destruct (Hpass ltac:(discriminate)) as [Hin Hadm];
         try specialize (Hadm eq_refl));
    simpl in Hrow |- *;
    unfold do_login, save_orders, create_user, edit_user, create_workcenter,
      edit_workcenter, create_department, edit_department, bad_request;
    rewrite ?Hin, ?Hadm;
    repeat (apply elem_of_cons in Hkey as [-> | Hkey]);
    try (by apply elem_of_nil in Hkey);
    rewrite ?Hnone; repeat case_match; done.
Qed.

Lemma missing_form_key_is_bad_request_witness :
  let req := mkRequest [("orders", "1|PO7|3")] [] 0 in
  @handle plain_backend Route.save_orders empty_shop user_session req
  = mkResult empty_shop user_session [] (Abort 400).
Proof.
  intros req.
  apply (@missing_form_key_is_bad_request plain_backend Route.save_orders
           empty_shop user_session req "order_type").
  - by right.
  - simpl. tauto.
  - apply list_elem_of_In. simpl. auto.
  - reflexivity.
Defined.

Lemma active_after_update_department d' ds d :
  Department.is_active d' = false ->
  d ∈ filter (fun v => Department.is_active v) (update_department d' ds) ->
  Department.id d <> Department.id d'.
Proof.
  intros Hoff Hd. apply list_elem_of_filter in Hd as [Hact Hd].
  unfold update_department in Hd. apply list_elem_of_fmap in Hd as (v & -> & Hv).
  case_bool_decide; [| done]. rewrite Hoff in Hact. done.
Qed.

(** X16. Deleting a department hides it without removing it: when the
    deletion is committed, the row is still there with [is_active] false
    and its name, the user list page no longer offers the department, the
    master-data page still lists a row under every key it listed, and no
    user row changes, so users keep the department text they had. *)
Theorem deleted_department_is_hidden_not_removed `{Backend} st sess req dept_id d :
  not_admin sess = false ->
  get_department st dept_id = Some d ->
  let d' := Department.mk (Department.id d) (Department.name d) false in
  commit_error st (set_departments st (update_department d' (departments st)))
    = None ->
  let st' := store (delete_department dept_id st sess req) in
  get_department st' dept_id = Some d'
  /\ users st' = users st
  /\ admin_users st' sess req
     = mkResult st' sess []
         (Render (admin_users_html (users st) (active_departments st')))
  /\ (forall v, v ∈ active_departments st' -> Department.id v <> dept_id)
  /\ master_data st' sess req
     = mkResult st' sess []
         (Render (master_data_html (workcenters st) (departments st')))
  /\ map Department.id (departments st') = map Department.id (departments st).
Proof.
  intros Hadmin Hget d' Hcommit st'.
  pose proof (get_department_id _ _ _ Hget) as Hid.
  assert (st' = set_departments st (update_department d' (departments st))) as ->.
  { subst st'. unfold delete_department. rewrite Hadmin, Hget.
    unfold commit. fold d'. by rewrite Hcommit. }
  split; [| split; [done | split; [| split; [| split]]]].
  - unfold get_department in *. simpl. rewrite <- Hid in *.
    by apply (find_update_department_same d' _ d).
  - unfold admin_users. by rewrite Hadmin.
  - intros v Hv. unfold active_departments in Hv. simpl in Hv.
    apply (active_after_update_department d') in Hv; [| done].
    simpl in Hv. congruence.
  - unfold master_data. by rewrite Hadmin.
  - apply update_department_ids.
Qed.

Lemma deleted_department_is_hidden_not_removed_witness :
  let st' := store (@delete_department plain_backend 1 empty_shop admin_session
                      no_request) in
  departments st' = [Department.mk 1 "Assembly" false]
  /\ active_departments st' = []
  /\ users st' = users empty_shop.
Proof.
  intros st'.
  destruct (@deleted_department_is_hidden_not_removed plain_backend empty_shop
              admin_session no_request 1 (Department.mk 1 "Assembly" true)
              eq_refl eq_refl eq_refl)
    as (_ & Husers & _).
  split; [reflexivity |]. split; [reflexivity | exact Husers].
Defined.

(** ** Batches *)

Section Batches.
Context `{Backend}.

Lemma rstrip_cons c r :
  Py.rstrip (String c r)
  = match Py.rstrip r with
    | EmptyString => if Py.isspace c then EmptyString else String c EmptyString
    | r' => String c r'
    end.
Proof. done. Qed.

Lemma rstrip_idemp s : Py.rstrip (Py.rstrip s) = Py.rstrip s.
Proof.
  induction s as [| c r IH]; [done |]. rewrite rstrip_cons.
  destruct (Py.rstrip r) as [| d r'] eqn:Hr.
  - destruct (Py.isspace c) eqn:Hc; [done |]. rewrite rstrip_cons. simpl.
    by rewrite Hc.
  - rewrite rstrip_cons. by rewrite IH.
Qed.

Lemma lstrip_no_lead s : no_lead (Py.lstrip s).
Proof.
  induction s as [| c r IH]; [done |]. simpl.
  by destruct (Py.isspace c) eqn:Hc.
Qed.

Lemma lstrip_id s : no_lead s -> Py.lstrip s = s.
Proof. destruct s as [| c r]; [done |]. simpl. by intros ->. Qed.

Lemma rstrip_no_lead s : no_lead s -> no_lead (Py.rstrip s).
Proof.
  destruct s as [| c r]; [done |]. simpl. intros Hc.
  destruct (Py.rstrip r); [by rewrite Hc | done].
Qed.

Lemma strip_idemp s : Py.strip (Py.strip s) = Py.strip s.
Proof.
  unfold Py.strip.
  rewrite (lstrip_id (Py.rstrip (Py.lstrip s)))
    by apply rstrip_no_lead, lstrip_no_lead.
  apply rstrip_idemp.
Qed.

(** What one turn of the loop can add: nothing, or one order with a
    trimmed code, the batch's type and the session's user. *)
Lemma save_entry_inv sess order_type pending order_data pending' :
  save_entry sess order_type pending order_data = Ok pending' ->
  pending' = pending
  \/ exists code wc qty uid,
       Session.user_id sess = Some uid
       /\ pending' = pending ++ [ProductionOrder.New.mk (Py.strip code) wc qty
                                  order_type uid].
Proof.
  unfold save_entry. intros Hs.
  repeat case_match; simplify_eq/=; auto;
    repeat match goal with
           | Hb : try_bind ?m _ = Ok _ |- _ =>
               destruct m eqn:?; simpl in Hb; [| done]
           | Hm : match ?x with _ => _ end = Ok _ |- _ =>
               destruct x eqn:?; simplify_eq/=
           end;
    simplify_eq/=; right.
  all: first [ by eexists _, _, _, _
             | exists EmptyString; by eexists _, _, _ ].
Qed.

Lemma save_loop_inv sess order_type orders_data :
  forall pending pending',
    save_loop sess order_type pending orders_data = Ok pending' ->
    exists added,
      pending' = pending ++ added
      /\ (length added <= length orders_data)%nat
      /\ Forall (fun n =>
                   Py.strip (ProductionOrder.New.production_order n)
                   = ProductionOrder.New.production_order n
                   /\ ProductionOrder.New.order_type n = order_type
                   /\ Session.user_id sess = Some (ProductionOrder.New.user_id n))
                added.
Proof.
  induction orders_data as [| e rest IH]; intros pending pending' Hs.
  - injection Hs as <-. exists []. by rewrite app_nil_r.
  - simpl in Hs.
    destruct (save_entry sess order_type pending e) as [p1 |] eqn:He; [| done].
    simpl in Hs. apply IH in Hs as (added & -> & Hlen & Hall).
    apply save_entry_inv in He as [-> | (code & wc & qty & uid & Huid & ->)].
    + exists added. split; [done |]. split; [simpl; lia | done].
    + eexists (_ :: added). rewrite <- app_assoc. split; [done |].
      split; [simpl; lia |]. constructor; [| done]. simpl.
      by rewrite strip_idemp.
Qed.

End Batches.

Section Rejections.
Context `{Backend}.

(** With a logged-in user the loop body raises nothing but the
    [ValueError] of a literal that is no integer. *)
Lemma save_entry_raises sess order_type pending order_data uid e :
  Session.user_id sess = Some uid ->
  save_entry sess order_type pending order_data = Raise e ->
  exists literal, Py.int literal = None /\ e = ValueError literal.
Proof.
  unfold save_entry. intros Huid Hs. rewrite Huid in Hs.
  repeat case_match; simplify_eq/=; eauto.
Qed.

Lemma save_entry_rejected sess order_type pending order_data uid :
  Session.user_id sess = Some uid ->
  rejected order_data ->
  exists literal,
    Py.int literal = None
    /\ save_entry sess order_type pending order_data = Raise (ValueError literal).
Proof.
  intros Huid (w & p & q & Hsplit & Hw & Hbad). unfold save_entry.
  assert (Py.truthy order_data = true) as ->.
  { destruct order_data; [| done]. simpl in Hsplit. congruence. }
  rewrite Hsplit. destruct w as [| c w]; [done |]. simpl.
  destruct (Py.int (String c w)) as [wn |] eqn:Hwn; simpl; [| by eauto].
  destruct Hbad as [Hbad | [Hq Hqn]]; [done |].
  destruct q as [| d q]; [done |]. simpl. rewrite Hqn. simpl. by eauto.
Qed.

Lemma save_loop_rejected sess order_type orders_data uid bad :
  Session.user_id sess = Some uid ->
  bad ∈ orders_data -> rejected bad ->
  forall pending,
    exists literal,
      Py.int literal = None
      /\ save_loop sess order_type pending orders_data = Raise (ValueError literal).
Proof.
  intros Huid Hin Hbad.
  induction orders_data as [| e rest IH]; intros pending.
  - by apply elem_of_nil in Hin.
  - simpl. destruct (save_entry sess order_type pending e) as [p1 | ex] eqn:He.
    + apply elem_of_cons in Hin as [-> | Hin].
      * destruct (save_entry_rejected sess order_type pending e uid Huid Hbad)
          as (literal & _ & Hraise). congruence.
      * simpl. by apply IH.
    + apply (save_entry_raises _ _ _ _ uid) in He as (literal & Hlit & ->);
        [| done].
      simpl. by eauto.
Qed.

End Rejections.




Example saved_code_is_trimmed :
  let req := mkRequest [("order_type", "IN"); ("orders", "1|  PO 9  |")] [] 7 in
  orders (store (@save_orders plain_backend empty_shop user_session req))
  = [ProductionOrder.mk 1 "PO 9" 1 0 "IN" 2 7].
Proof. reflexivity. Qed.

Lemma split_cons sep c r :
  Py.split sep (String c r)
  = if Ascii.eqb c sep then EmptyString :: Py.split sep r
    else match Py.split sep r with
         | [] => [String c EmptyString]
         | w :: ws => String c w :: ws
         end.
Proof. done. Qed.

Lemma split_not_nil sep s : Py.split sep s <> [].
Proof.
  induction s as [| c r IH]; [done |]. rewrite split_cons.
  destruct (Ascii.eqb c sep); [done |]. by destruct (Py.split sep r).
Qed.

Lemma join_fields_cons sep w ws :
  ws <> [] -> join_fields sep (w :: ws) = w +:+ String sep (join_fields sep ws).
Proof. by destruct ws. Qed.

Lemma split_length sep s : length (Py.split sep s) = S (count_char sep s).
Proof.
  induction s as [| c r IH]; [done |]. rewrite split_cons. cbn [count_char].
  destruct (Ascii.eqb c sep).
  - by rewrite length_cons, IH.
  - pose proof (split_not_nil sep r) as Hne.
    destruct (Py.split sep r) as [| w ws]; [done |]. simpl in *. lia.
Qed.

Lemma join_fields_push sep c w ws :
  join_fields sep (String c w :: ws) = String c (join_fields sep (w :: ws)).
Proof. by destruct ws. Qed.

(** X19. The fields [save_orders] reads off an entry are the entry cut at
    its bars and nothing else: joining the fields of [split] with the
    separator gives the text back, there is one field more than there are
    separators, and no field holds the separator. So an entry has three
    fields exactly when it has two bars: a bar inside the order code makes
    the entry one that is skipped. *)
Theorem split_fields_round_trip sep s :
  join_fields sep (Py.split sep s) = s
  /\ length (Py.split sep s) = S (count_char sep s)
  /\ Forall (fun w => count_char sep w = 0%nat) (Py.split sep s)
  /\ (three_fields s <-> count_char "|" s = 2%nat).
Proof.
  split; [| split; [apply split_length | split]].
  - induction s as [| c r IH]; [done |]. rewrite split_cons.
    pose proof (split_not_nil sep r) as Hne.
    destruct (Ascii.eqb c sep) eqn:Hc.
    + apply Ascii.eqb_eq in Hc as ->. rewrite join_fields_cons by done.
      by rewrite IH.
    + destruct (Py.split sep r) as [| w ws]; [done |].
      rewrite join_fields_push. by rewrite IH.
  - induction s as [| c r IH]; [by repeat constructor |]. rewrite split_cons.
    destruct (Ascii.eqb c sep) eqn:Hc; [by constructor |].
    pose proof (split_not_nil sep r) as Hne.
    destruct (Py.split sep r) as [| w ws]; [done |].
    apply Forall_cons in IH as [Hw Hws]. constructor; [| done].
    simpl. by rewrite Hc.
  - unfold three_fields. rewrite split_length. lia.
Qed.

Example code_with_a_bar_is_skipped :
  let req := mkRequest [("order_type", "IN"); ("orders", "1|PO|7|3")] [] 7 in
  @save_orders plain_backend empty_shop user_session req
  = mkResult empty_shop user_session [("IN orders saved successfully!", "success")]
             (Redirect "menu").
Proof. reflexivity. Qed.

(** ** Listings, dashboard and export *)

Lemma elem_of_joined_orders st o :
  o ∈ map order (joined_orders st)
  <-> o ∈ orders st
      /\ is_Some (get_workcenter st (ProductionOrder.workcenter_id o))
      /\ is_Some (get_user st (ProductionOrder.user_id o)).
Proof.
  unfold joined_orders. rewrite list_elem_of_fmap. split.
  - intros (r & -> & Hr). apply list_elem_of_omap in Hr as (o & Ho & Hj).
    unfold join_order in Hj.
    destruct (get_workcenter st (ProductionOrder.workcenter_id o)) as [w |] eqn:Hw;
      [| done].
    destruct (get_user st (ProductionOrder.user_id o)) as [u |] eqn:Hu; [| done].
    simpl in Hj. injection Hj as <-. simpl. rewrite Hw, Hu. eauto.
  - intros (Ho & [w Hw] & [u Hu]). exists (mkRow o w u). split; [done |].
    apply list_elem_of_omap. exists o. split; [done |].
    unfold join_order. by rewrite Hw, Hu.
Qed.

#[global] Instance asc_total {K} (le : relation K) `{!Total le} key :
  Total (asc le key).
Proof. intros a b. unfold asc. apply (total le). Qed.

#[global] Instance asc_trans {K} (le : relation K) `{!Transitive le} key :
  Transitive (asc le key).
Proof. intros a b c. unfold asc. apply transitivity. Qed.

#[global] Instance desc_total {K} (le : relation K) `{!Total le} key :
  Total (desc le key).
Proof. intros a b. unfold desc. apply (total le). Qed.

#[global] Instance desc_trans {K} (le : relation K) `{!Transitive le} key :
  Transitive (desc le key).
Proof. intros a b c. unfold desc. intros Hab Hbc. by etrans. Qed.

(** X20. The listing shows exactly the orders whose work center and user
    have rows: for a logged-in user and no search term, an order is among
    the rows [reports] renders if and only if it is in the orders table
    and both rows its keys name exist, and each rendered row carries those
    two rows. [save_orders] checks neither key, so an order saved against a
    work center without a row is stored but never listed. *)
Theorem listing_shows_orders_with_rows `{Backend} st sess req :
  Session.logged_in sess = true ->
  getitem "search" (args req) = None ->
  exists rows sort_by order_arg,
    response (reports st sess req)
    = Render (reports_html rows EmptyString sort_by order_arg)
    /\ (forall o,
          o ∈ map order rows
          <-> o ∈ orders st
              /\ is_Some (get_workcenter st (ProductionOrder.workcenter_id o))
              /\ is_Some (get_user st (ProductionOrder.user_id o)))
    /\ (forall r,
          r ∈ rows ->
          get_workcenter st (ProductionOrder.workcenter_id (order r))
            = Some (workcenter r)
          /\ get_user st (ProductionOrder.user_id (order r)) = Some (user r)).
Proof.
  intros Hin Hsearch. unfold reports. rewrite Hin. simpl.
  rewrite (get_None "search" _ _ Hsearch).
  eexists _, _, _. split; [reflexivity |].
  assert (report_query st EmptyString (get "sort" "created_at" (args req))
            (get "order" "desc" (args req)) ≡ₚ joined_orders st) as Hperm.
  { apply (report_query_Permutation st EmptyString). }
  split.
  - intros o. rewrite <- elem_of_joined_orders. by rewrite Hperm.
  - intros r Hr. rewrite Hperm in Hr. by apply joined_orders_rows in Hr as (_ & ? & ?).
Qed.

Lemma listing_shows_orders_with_rows_witness :
  let st := set_orders empty_shop
              [ProductionOrder.mk 1 "PO1" 1 5 "IN" 2 10;
               ProductionOrder.mk 2 "PO2" 99 5 "IN" 2 20] in
  exists rows,
    response (@reports plain_backend st user_session no_request)
    = Render (reports_html rows EmptyString "created_at" "desc")
    /\ map ProductionOrder.id (map order rows) = [1].
Proof.
  intros st.
  destruct (@listing_shows_orders_with_rows plain_backend st user_session
              no_request eq_refl eq_refl) as (rows & sort_by & order_arg & Hres & _).
  injection Hres as <- <- <-. eexists. split; reflexivity.
Defined.

(** X21. [sort] and [order] only arrange the listing: whatever their
    values the rows are a permutation of the filtered join, and for each
    of the three column names the rows are sorted by that column,
    ascending when [order] is [asc] and descending for any other value of
    [order]. *)
Theorem listing_is_sorted_as_asked `{Backend} st search sort_by order_arg :
  let rows := report_query st search sort_by order_arg in
  rows ≡ₚ report_rows st search
  /\ (sort_by = "created_at" ->
      (order_arg = "asc" -> StronglySorted (asc Z.le created_at) rows)
      /\ (order_arg <> "asc" -> StronglySorted (desc Z.le created_at) rows))
  /\ (sort_by = "production_order" ->
      (order_arg = "asc" -> StronglySorted (asc String.le production_order) rows)
      /\ (order_arg <> "asc" ->
          StronglySorted (desc String.le production_order) rows))
  /\ (sort_by = "quantity" ->
      (order_arg = "asc" -> StronglySorted (asc Z.le quantity) rows)
      /\ (order_arg <> "asc" -> StronglySorted (desc Z.le quantity) rows)).
Proof.
  intros rows. subst rows. split; [apply report_query_Permutation |].
  unfold report_query, order_by.
  repeat split; intros; subst; simpl;
    rewrite ?bool_decide_eq_true_2, ?bool_decide_eq_false_2 by done;
    apply StronglySorted_merge_sort; apply _.
Qed.

Lemma listing_is_sorted_as_asked_witness :
  map production_order
      (@report_query plain_backend busy_shop EmptyString "production_order" "ASC")
  = ["PO300"; "PO100"; "AB_7"]
  /\ StronglySorted (desc String.le production_order)
       (@report_query plain_backend busy_shop EmptyString "production_order" "ASC").
Proof.
  split; [reflexivity |].
  destruct (@listing_is_sorted_as_asked plain_backend busy_shop EmptyString
              "production_order" "ASC") as (_ & _ & Hcode & _).
  destruct (Hcode eq_refl) as [_ Hdesc]. apply Hdesc. discriminate.
Defined.

Lemma count_types_le (os : list ProductionOrder.t) :
  count (filter (fun o => ProductionOrder.order_type o = "IN") os)
  + count (filter (fun o => ProductionOrder.order_type o = "OUT") os)
  <= count os.
Proof.
  unfold count. induction os as [| o os IH]; [done |].
  rewrite !filter_cons.
  destruct (decide (ProductionOrder.order_type o = "IN")) as [Hin | Hin];
    destruct (decide (ProductionOrder.order_type o = "OUT")) as [Hout | Hout];
    simpl length; try lia.
  rewrite Hin in Hout. discriminate.
Qed.

(** X22. The admin dashboard shows the ten newest orders: for an admin the
    recent orders are at most ten rows of the join, newest first, every
    joined order left out is no newer than any row shown, and rows are
    left out only when ten are shown. The IN and OUT totals count the
    orders table itself and together never exceed its size. *)
Theorem dashboard_shows_newest_ten st sess req :
  not_admin sess = false ->
  exists recent older,
    admin_dashboard st sess req
    = mkResult st sess []
        (Render (admin_dashboard_html
                   (count (filter (fun u => User.is_active u) (users st)))
                   (count (active_workcenters st))
                   (count (filter (fun o => ProductionOrder.order_type o = "IN")
                                  (orders st)))
                   (count (filter (fun o => ProductionOrder.order_type o = "OUT")
                                  (orders st)))
                   recent))
    /\ recent ++ older ≡ₚ joined_orders st
    /\ (length recent <= 10)%nat
    /\ (older <> [] -> length recent = 10%nat)
    /\ StronglySorted (desc Z.le created_at) recent
    /\ (forall r r', r ∈ recent -> r' ∈ older -> created_at r' <= created_at r)
    /\ count (filter (fun o => ProductionOrder.order_type o = "IN") (orders st))
       + count (filter (fun o => ProductionOrder.order_type o = "OUT") (orders st))
       <= count (orders st).
Proof.
  intros Hadmin.
  set (sorted := merge_sort (desc Z.le created_at) (joined_orders st)).
  assert (StronglySorted (desc Z.le created_at) (take 10 sorted ++ drop 10 sorted))
    as Hsorted.
  { rewrite take_drop. apply StronglySorted_merge_sort; apply _. }
  exists (take 10 sorted), (drop 10 sorted).
  split; [unfold admin_dashboard; by rewrite Hadmin |].
  split; [rewrite take_drop; apply merge_sort_Permutation |].
  split; [rewrite length_take; lia |].
  split.
  { intros Holder. rewrite length_take.
    destruct (decide (length sorted <= 10)%nat) as [Hle | Hgt]; [| lia].
    exfalso. apply Holder. by apply drop_ge. }
  split; [by apply StronglySorted_app_1_l in Hsorted |].
  split; [| apply count_types_le].
  intros r r' Hr Hr'.
  apply (StronglySorted_app_1_elem_of _ _ _ r r' Hsorted Hr Hr').
Qed.

Lemma dashboard_shows_newest_ten_witness :
  exists recent,
    response (admin_dashboard busy_shop admin_session no_request)
    = Render (admin_dashboard_html 2 2 2 1 recent)
    /\ map created_at recent = [3000; 2000; 1000].
Proof.
  destruct (dashboard_shows_newest_ten busy_shop admin_session no_request eq_refl) as (recent & older & Hres & _).
  exists recent. rewrite Hres. simpl. split; [reflexivity |].
  injection Hres as <-. reflexivity.
Defined.

(** X23. [admin_reports] and [reports] are the same listing: for an admin
    and one request, both render the same rows in the same order with the
    same search, sort and order values; only the template differs. *)
Theorem admin_reports_agrees_with_reports `{Backend} st sess req :
  not_admin sess = false ->
  exists rows search sort_by order_arg,
    reports st sess req
    = mkResult st sess [] (Render (reports_html rows search sort_by order_arg))
    /\ admin_reports st sess req
       = mkResult st sess []
           (Render (admin_reports_html rows search sort_by order_arg)).
Proof.
  intros Hadmin. unfold reports, admin_reports. rewrite Hadmin.
  apply orb_false_elim in Hadmin as [-> _]. by eexists _, _, _, _.
Qed.

Lemma admin_reports_agrees_with_reports_witness :
  let req := mkRequest [] [("search", "PO"); ("sort", "quantity")] 0 in
  exists rows,
    response (@reports plain_backend busy_shop admin_session req)
    = Render (reports_html rows "PO" "quantity" "desc")
    /\ response (@admin_reports plain_backend busy_shop admin_session req)
       = Render (admin_reports_html rows "PO" "quantity" "desc")
    /\ map quantity rows = [50; 0].
Proof.
  intros req.
  destruct (@admin_reports_agrees_with_reports plain_backend busy_shop
              admin_session req eq_refl)
    as (rows & search & sort_by & order_arg & Hr & Ha).
  exists rows. rewrite Hr, Ha. injection Hr as <- <- <- <-.
  repeat split; reflexivity.
Defined.





(** ** Sessions and roles *)

(** X26. [logout] logs out: with the session [logout] returns, every
    handler but the login page and the login POST redirects to the login
    page and leaves the store as it was, whatever the session was before
    and whatever the request. *)
Theorem logout_closes_every_door `{Backend} r st st' sess req req' :
  r <> Route.login -> r <> Route.do_login ->
  let closed := session (logout st sess req) in
  response (handle r st' closed req') = Redirect "login"
  /\ store (handle r st' closed req') = st'.
Proof.
  intros Hlogin Hpost closed. subst closed.
  destruct r; try done; by simpl.
Qed.

Lemma logout_closes_every_door_witness :
  let req := mkRequest [("order_type", "IN"); ("orders", "1|PO1|5")] [] 0 in
  let closed := session (logout empty_shop user_session no_request) in
  @handle plain_backend Route.save_orders empty_shop closed req
  = mkResult empty_shop Session.clear [] (Redirect "login").
Proof.
  intros req closed.
  destruct (@logout_closes_every_door plain_backend Route.save_orders empty_shop
              empty_shop user_session no_request req
              ltac:(discriminate) ltac:(discriminate)) as [Hresp Hstore].
  reflexivity.
Defined.

(** X27. The session [do_login] establishes carries the role of the row:
    after a login that found the active row [u] and verified the password,
    a handler's test refuses the new session exactly when the handler is
    admin-only and [u] is no admin. So a non-admin who logs in is sent
    back to the login page by every admin handler, without any change to
    the store, and an admin is refused by none. *)
Theorem login_session_has_the_role `{Backend} st sess req username password u :
  getitem "username" (form req) = Some username ->
  getitem "password" (form req) = Some password ->
  find (fun v => bool_decide (User.username v = username) && User.is_active v)
       (users st) = Some u ->
  check_password u password = true ->
  let sess' := session (do_login st sess req) in
  (forall r, refused r sess' = admin_only r && negb (User.is_admin u))
  /\ (User.is_admin u = false ->
      forall r st' req',
        admin_only r = true ->
        response (handle r st' sess' req') = Redirect "login"
        /\ store (handle r st' sess' req') = st').
Proof.
  intros Hname Hpass Hfind Hcheck sess'. subst sess'.
  rewrite (do_login_found _ _ _ username password u) by done. simpl.
  split; [done |].
  intros Hrole r st' req' Hr.
  destruct r; try done; simpl;
    unfold admin_dashboard, admin_users, create_user, edit_user, delete_user,
      admin_reports, export_excel, master_data, create_workcenter,
      edit_workcenter, delete_workcenter, create_department, edit_department,
      delete_department, not_admin, Session.admin, Session.logged_in;
    simpl; by rewrite Hrole.
Qed.

Lemma login_session_has_the_role_witness :
  let req := mkRequest [("username", "bob"); ("password", "hunter2")] [] 0 in
  let sess' := session (@do_login plain_backend empty_shop Session.clear req) in
  response (@handle plain_backend (Route.delete_user 1) empty_shop sess' no_request)
  = Redirect "login".
Proof.
  intros req sess'.
  destruct (@login_session_has_the_role plain_backend empty_shop Session.clear req
              "bob" "hunter2" bob eq_refl eq_refl eq_refl eq_refl) as [_ Hrefused].
  destruct (Hrefused eq_refl (Route.delete_user 1) empty_shop no_request eq_refl)
    as [Hresp _].
  exact Hresp.
Defined.

(** X28. [edit_workcenter] is the way back for a deleted work center: it
    sets the name and the active flag from the form, so when the edit is
    committed with [is_active] in the form, the row is active again under
    the submitted name and the order-entry forms offer it, whatever its
    flag was; without [is_active] in the form the edit deactivates it. *)
Theorem edit_workcenter_sets_active_flag `{Backend} st sess req wc_id w name :
  not_admin sess = false ->
  get_workcenter st wc_id = Some w ->
  getitem "name" (form req) = Some name ->
  let w' := WorkCenter.mk wc_id name (contains_key "is_active" (form req)) in
  commit_error st (set_workcenters st (update_workcenter w' (workcenters st)))
    = None ->
  let st' := store (edit_workcenter wc_id st sess req) in
  get_workcenter st' wc_id = Some w'
  /\ (contains_key "is_active" (form req) = true -> w' ∈ active_workcenters st')
  /\ (contains_key "is_active" (form req) = false ->
      forall v, v ∈ active_workcenters st' -> WorkCenter.id v <> wc_id)
  /\ orders st' = orders st.
Proof.
  intros Hadmin Hget Hname w' Hcommit st'.
  pose proof (get_workcenter_id _ _ _ Hget) as Hid.
  assert (st' = set_workcenters st (update_workcenter w' (workcenters st))) as ->.
  { subst st'. unfold edit_workcenter. rewrite Hadmin, Hget, Hname, Hid.
    unfold commit. fold w'. by rewrite Hcommit. }
  assert (get_workcenter (set_workcenters st (update_workcenter w' (workcenters st)))
            wc_id = Some w') as Hrow.
  { unfold get_workcenter in *. simpl.
    change wc_id with (WorkCenter.id w') at 1.
    by apply (find_update_workcenter_same w' _ w). }
  split; [done |]. split; [| split; [| done]].
  - intros Hon. unfold active_workcenters. apply list_elem_of_filter.
    split; [simpl; by rewrite Hon |].
    unfold get_workcenter in Hrow. apply find_some in Hrow as [Hin _].
    by apply list_elem_of_In.
  - intros Hoff v Hv. unfold active_workcenters in Hv. simpl in Hv.
    by apply (active_after_update_workcenter w') in Hv.
Qed.

Lemma edit_workcenter_sets_active_flag_witness :
  let gone := store (@delete_workcenter plain_backend 1 empty_shop admin_session
                       no_request) in
  let req := mkRequest [("name", "Lathe 2"); ("is_active", "on")] [] 0 in
  let back := store (@edit_workcenter plain_backend 1 gone admin_session req) in
  active_workcenters gone = [mill]
  /\ active_workcenters back = [WorkCenter.mk 1 "Lathe 2" true; mill].
Proof.
  intros gone req back.
  destruct (@edit_workcenter_sets_active_flag plain_backend gone admin_session req
              1 (WorkCenter.mk 1 "Lathe" false) "Lathe 2"
              eq_refl eq_refl eq_refl eq_refl) as (Hrow & Hon & _).
  split; reflexivity.
Defined.

Lemma int_of_blank s : Py.strip s = EmptyString -> Py.int s = None.
Proof. unfold Py.int. by intros ->. Qed.


